(** * Dispatcharr timeshift plugin: hooks.py and views.py

    A shallow embedding of the two modules of the plugin and the properties
    of its specification.

    Conventions of the embedding:
    - a Python [str] is a [string]; its characters are the code points
      0..255, a range in which the regex class [\d] and [str.isdigit] are
      exactly the ASCII digits;
    - a JSON property bag ([custom_properties], a catalog entry) is a
      [gmap string jvalue]; JSON numbers are integers;
    - the relational store is a record of tables; a table is a list in
      primary-key order, so that [.first()] on an unordered queryset is the
      head of the filtered list; the user table, whose [username] column is
      unique, is a map keyed by username;
    - a Python exception is a value of [exn]; a handler returns an
      [outcome], a response or a raised exception;
    - outbound HTTP traffic is a list of the requests sent, in order;
    - module-level globals and patched attributes of the host are fields of
      an explicit state record, and function objects are compared by
      identity;
    - calls to [logger] do not influence control flow and are left out. *)

From Stdlib Require Import ZArith String Ascii List Lia Bool.
From stdpp Require Import base option list strings gmap pretty.
Import ListNotations.
Open Scope string_scope.
Open Scope Z_scope.

(** ** Python values and built-ins *)

Module Py.

(** A JSON scalar as stored in a property bag. *)
Inductive jvalue : Type :=
| JNull
| JBool (b : bool)
| JInt (z : Z)
| JStr (s : string).

Abbreviation dict := (gmap string jvalue).

(** Exceptions raised by the modelled code and by the library calls it makes. *)
Inductive exn : Type :=
| ImportError (name : string)
| Http404 (msg : string)
| Resolver404 (path : string)
| ValueError
| TypeError
| KeyError (key : string)
| OverflowError
| RecursionError
| OtherError (what : string).

(** [bool(v)] *)
Definition truthy (v : jvalue) : bool :=
  match v with
  | JNull => false
  | JBool b => b
  | JInt z => negb (z =? 0)
  | JStr s => negb (String.eqb s "")
  end.

(** [bool(d.get(k))]: an absent key reads as [None]. *)
Definition truthy_opt (v : option jvalue) : bool :=
  match v with
  | None => false
  | Some x => truthy x
  end.

(** [custom_properties or {}] on a nullable JSON column. *)
Definition or_empty (p : option dict) : dict :=
  match p with
  | Some d => d
  | None => ∅
  end.

Definition is_digit (c : ascii) : bool :=
  let n := nat_of_ascii c in ((48 <=? n) && (n <=? 57))%nat.

Definition digit_val (c : ascii) : Z := Z.of_nat (nat_of_ascii c) - 48.

(** The white space [int()] strips around a literal, on the code points
    below 256: the ASCII ones of C's [isspace], and the two that are not
    ASCII and for which [str.isspace] holds (NEL and the no-break space).
    The separators 28 to 31 are not stripped. *)
Definition is_space (c : ascii) : bool :=
  let n := nat_of_ascii c in
  (((9 <=? n) && (n <=? 13)) || (n =? 32) || (n =? 133) || (n =? 160))%nat.

Fixpoint lstrip_space (s : string) : string :=
  match s with
  | String c r => if is_space c then lstrip_space r else s
  | EmptyString => EmptyString
  end.

Definition strip_space (s : string) : string :=
  String.rev (lstrip_space (String.rev (lstrip_space s))).

(** The digit part of an integer literal: digits, with single underscores
    allowed between two digits. [after_digit] tells whether the previous
    character was a digit. *)
Fixpoint int_digits (acc : Z) (after_digit : bool) (s : string) : option Z :=
  match s with
  | EmptyString => if after_digit then Some acc else None
  | String c r =>
      if is_digit c then int_digits (10 * acc + digit_val c) true r
      else if Ascii.eqb c "_" then
             if after_digit then int_digits acc false r else None
           else None
  end.

(** [int(s)] for a string: surrounding white space, an optional sign, and a
    decimal literal. [None] stands for [ValueError]. *)
Definition int_of_str (s : string) : option Z :=
  match strip_space s with
  | String "-" r => Z.opp <$> int_digits 0 false r
  | String "+" r => int_digits 0 false r
  | t => int_digits 0 false t
  end.

(** [int(v)] for a JSON scalar. *)
Definition int_of (v : jvalue) : exn + Z :=
  match v with
  | JNull => inl TypeError
  | JBool b => inr (if b then 1 else 0)
  | JInt z => inr z
  | JStr s => match int_of_str s with Some z => inr z | None => inl ValueError end
  end.

(** [str(v)] where [v] may be [None] (absent key read with [.get]). *)
Definition str_of (v : option jvalue) : string :=
  match v with
  | None | Some JNull => "None"
  | Some (JBool true) => "True"
  | Some (JBool false) => "False"
  | Some (JInt z) => pretty z
  | Some (JStr s) => s
  end.

(** [a == b] between a JSON scalar and a [str]. *)
Definition eq_str (v : jvalue) (s : string) : bool :=
  match v with
  | JStr t => String.eqb t s
  | _ => false
  end.

Fixpoint mem_ascii (c : ascii) (cs : string) : bool :=
  match cs with
  | EmptyString => false
  | String d r => Ascii.eqb c d || mem_ascii c r
  end.

Fixpoint lstrip (chars s : string) : string :=
  match s with
  | String c r => if mem_ascii c chars then lstrip chars r else s
  | EmptyString => EmptyString
  end.

(** [s.rstrip(chars)]: drops every trailing character that belongs to
    [chars] (a set of characters, not a suffix). *)
Definition rstrip (chars s : string) : string :=
  String.rev (lstrip chars (String.rev s)).

(** [c.lower()] on the code points below 256. *)
Definition lower_char (c : ascii) : ascii :=
  let n := nat_of_ascii c in
  if (((65 <=? n) && (n <=? 90)) || ((192 <=? n) && (n <=? 214))
      || ((216 <=? n) && (n <=? 222)))%nat
  then ascii_of_nat (n + 32) else c.

(** [s.lower()] *)
Fixpoint lower (s : string) : string :=
  match s with
  | EmptyString => EmptyString
  | String c r => String (lower_char c) (lower r)
  end.

(** [s.startswith(p)] *)
Definition startswith (p s : string) : bool := String.prefix p s.

(** [s.replace(old, new)] for a non-empty [old]; [skip] counts the
    characters of a matched occurrence that remain to be dropped. *)
Fixpoint replace_from (old new : string) (skip : nat) (s : string) : string :=
  match s with
  | EmptyString => EmptyString
  | String c r =>
      match skip with
      | S k => replace_from old new k r
      | O =>
          if String.prefix old s
          then new +:+ replace_from old new (Nat.pred (String.length old)) r
          else String c (replace_from old new O r)
      end
  end.

Definition replace (old new s : string) : string := replace_from old new O s.

(** [s.split(sep)] for a one-character separator. *)
Fixpoint split_on (sep : ascii) (cur : string) (s : string) : list string :=
  match s with
  | EmptyString => [String.rev cur]
  | String c r =>
      if Ascii.eqb c sep then String.rev cur :: split_on sep EmptyString r
      else split_on sep (String c cur) r
  end.

Definition split (sep : ascii) (s : string) : list string :=
  split_on sep EmptyString s.

Definition all_chars (p : ascii -> bool) (s : string) : bool :=
  forallb p (list_ascii_of_string s).

(** Position of the last ["."] of [s], as [str.rfind]. *)
Fixpoint rfind_dot (i : nat) (s : string) (last : option nat) : option nat :=
  match s with
  | EmptyString => last
  | String c r => rfind_dot (S i) r (if Ascii.eqb c "." then Some i else last)
  end.

(** [pathlib.PurePosixPath(p).stem]: the final component, without its last
    suffix; a leading dot, or a trailing one, starts no suffix. *)
Definition stem (p : string) : string :=
  let parts := filter (fun c => c <> "" /\ c <> ".") (split "/" p) in
  let name := List.last parts "" in
  match rfind_dot O name None with
  | Some i =>
      if ((0 <? i) && (i <? Nat.pred (String.length name)))%nat
      then String.substring 0 i name else name
  | None => name
  end.

End Py.
Import Py.

(** ** The relational store read by the plugin *)

Module Store.

(** [apps.m3u.models.M3UAccount]; [get_user_agent().user_agent] is the
    column [m3u_user_agent]. *)
Record M3UAccount : Type := {
  account_type : string;
  server_url : string;
  m3u_username : string;
  m3u_password : string;
  m3u_user_agent : string
}.

(** [apps.channels.models.Stream] *)
Record Stream : Type := {
  stream_pk : Z;
  stream_custom_properties : option dict;
  m3u_account : option M3UAccount
}.

(** [apps.channels.models.Channel] *)
Record Channel : Type := {
  channel_id : Z;
  channel_uuid : string;
  channel_name : string;
  channel_user_level : Z
}.

(** The through table of [Channel.streams], with its ordinal. *)
Record ChannelStream : Type := {
  cs_channel : Z;
  cs_stream : Z;
  cs_order : Z
}.

Record ChannelProfileMembership : Type := {
  cpm_channel : Z;
  cpm_channel_profile : Z;
  cpm_enabled : bool
}.

(** [apps.accounts.models.User]; [django_password] is the primary
    credential of the platform. *)
Record User : Type := {
  username : string;
  django_password : string;
  user_level : Z;
  user_custom_properties : option dict;
  channel_profiles : list Z
}.

Record database : Type := {
  users : gmap string User;
  streams : list Stream;
  channels : list Channel;
  channel_streams : list ChannelStream;
  memberships : list ChannelProfileMembership
}.

(** [queryset.first()] *)
Definition first {A : Type} (qs : list A) : option A := head qs.

Definition is_xc (s : Stream) : bool :=
  match m3u_account s with
  | Some a => String.eqb (account_type a) "XC"
  | None => false
  end.

(** The JSON key lookup [custom_properties__stream_id=sid] with a [str]
    on the right: the stored value is the JSON string [sid]. *)
Definition has_provider_id (sid : string) (s : Stream) : bool :=
  match stream_custom_properties s with
  | Some props =>
      match props !! "stream_id" with
      | Some v => eq_str v sid
      | None => false
      end
  | None => false
  end.

(** [Stream.objects.filter(custom_properties__stream_id=sid,
    m3u_account__account_type='XC')] *)
Definition xc_streams_with_provider_id (db : database) (sid : string) : list Stream :=
  List.filter (fun s => has_provider_id sid s && is_xc s) (streams db).

Definition linked (db : database) (c : Channel) (s : Stream) : bool :=
  existsb (fun r => (cs_channel r =? channel_id c) && (cs_stream r =? stream_pk s))
          (channel_streams db).

(** [stream.channels] *)
Definition stream_channels (db : database) (s : Stream) : list Channel :=
  List.filter (fun c => linked db c s) (channels db).

(** The row of least ordinal, the earliest one among equals. *)
Fixpoint least_order (best : option ChannelStream) (rows : list ChannelStream)
  : option ChannelStream :=
  match rows with
  | [] => best
  | r :: rest =>
      match best with
      | Some b => least_order (if cs_order r <? cs_order b then Some r else best) rest
      | None => least_order (Some r) rest
      end
  end.

Definition stream_by_pk (db : database) (pk : Z) : option Stream :=
  List.find (fun s => stream_pk s =? pk) (streams db).

(** [channel.streams.order_by('channelstream__order').first()] *)
Definition first_ordered_stream (db : database) (c : Channel) : option Stream :=
  let rows := List.filter
                (fun r => (cs_channel r =? channel_id c)
                          && bool_decide (is_Some (stream_by_pk db (cs_stream r))))
                (channel_streams db) in
  r ← least_order None rows; stream_by_pk db (cs_stream r).

(** [Channel.objects.filter(id=i)] *)
Definition channels_by_id (db : database) (i : Z) : list Channel :=
  List.filter (fun c => channel_id c =? i) (channels db).

(** [Channel.objects.filter(id=i, user_level__lte=lvl)] *)
Definition channels_by_id_level (db : database) (i lvl : Z) : list Channel :=
  List.filter (fun c => (channel_id c =? i) && (channel_user_level c <=? lvl))
              (channels db).

(** One membership row satisfies both conditions put on the relation in
    a single [filter] call. *)
Definition enabled_member (db : database) (profiles : list Z) (c : Channel) : bool :=
  existsb (fun m => (cpm_channel m =? channel_id c) && cpm_enabled m
                    && existsb (Z.eqb (cpm_channel_profile m)) profiles)
          (memberships db).

(** [Channel.objects.filter(id=i, channelprofilemembership__enabled=True,
    user_level__lte=lvl,
    channelprofilemembership__channel_profile__in=profiles).distinct()] *)
Definition channels_by_id_level_profiles (db : database) (i lvl : Z)
    (profiles : list Z) : list Channel :=
  List.filter (fun c => (channel_id c =? i) && (channel_user_level c <=? lvl)
                        && enabled_member db profiles c)
              (channels db).

End Store.
Import Store.

(** ** Requests, responses and the outside world *)

Module Http.

(** The inbound Django request: its [META] mapping. *)
Record request : Type := { META : gmap string string }.

(** One call [requests.get(url, headers=..., stream=True, timeout=...)]. *)
Record outbound : Type := {
  out_url : string;
  out_headers : gmap string string;
  out_stream : bool;
  out_timeout : Z
}.

(** The upstream reply once its status line and headers are read.
    [resp_headers] is the store of the case-insensitive mapping
    [response.headers]: it is keyed by the lower-cased header name. *)
Record upstream_response : Type := {
  status_code : Z;
  resp_headers : gmap string string;
  iter_content : list string
}.

(** [headers.get(name)] and [name in headers] on [response.headers]. *)
Definition header_get (headers : gmap string string) (name : string) : option string :=
  headers !! lower name.

(** The store of a case-insensitive mapping built from header lines. *)
Definition headers_of (lines : list (string * string)) : gmap string string :=
  foldl (fun m kv => <[lower kv.1 := kv.2]> m) ∅ lines.

(** What [requests.get] does: it returns, or raises one of the classes of
    [requests.exceptions] the proxy tells apart, or something else. *)
Inductive get_result : Type :=
| GetResponse (r : upstream_response)
| GetTimeout
| GetConnectionError
| GetRequestException
| GetRaises (e : exn).

Inductive response : Type :=
| HttpResponseForbidden (body : string)
| HttpResponseBadRequest (body : string)
| StreamingHttpResponse (chunks : list string) (content_type : string)
    (status : Z) (headers : gmap string string)
| Response (error : string) (status : Z)
| HostResponse (callee : string) (args : list string).

Definition status_of (r : response) : option Z :=
  match r with
  | HttpResponseForbidden _ => Some 403
  | HttpResponseBadRequest _ => Some 400
  | StreamingHttpResponse _ _ st _ => Some st
  | Response _ st => Some st
  | HostResponse _ _ => None
  end.

Inductive outcome : Type :=
| Returns (r : response)
| Raises (e : exn).

(** An attribute of a module, seen from the code that imports it: a
    function of one property bag to a pair, a function of no argument to
    a configuration mapping, or any other object. *)
Inductive attr : Type :=
| Opaque
| FnOfProps (f : dict -> jvalue * jvalue)
| FnConfig (f : unit -> gmap string string).

Abbreviation namespace := (gmap string attr).

(** [from module import name] *)
Definition import_from (m : namespace) (name : string) : exn + attr :=
  match m !! name with
  | Some a => inr a
  | None => inl (ImportError name)
  end.

(** What a request can observe outside the process. [plugin_row] is the
    outcome of [PluginConfig.objects.get(key='dispatcharr_timeshift')]
    followed by [.enabled]; [tzdata] gives, for a zone key the system
    knows, the offset from UTC in seconds at an instant in seconds since
    the epoch. *)
Record world : Type := {
  db : database;
  plugin_row : exn + bool;
  upstream : outbound -> get_result;
  tzdata : string -> option (Z -> Z)
}.

End Http.
Import Http.

(** ** hooks.py: the names the module binds *)

(** Every global of hooks.py: its imports, its logger, the four saved
    references and its functions. *)
Definition hooks_globals : list string :=
  [ "re"; "logging"; "logger";
    "_original_xc_get_live_streams"; "_original_stream_xc";
    "_original_url_callbacks"; "_original_resolve";
    "_is_plugin_enabled"; "install_hooks"; "uninstall_hooks";
    "_patch_xc_get_live_streams"; "_restore_xc_get_live_streams";
    "_patch_stream_xc"; "_restore_stream_xc";
    "_patch_url_resolver"; "_restore_url_resolver" ].

Definition hooks_module : namespace :=
  list_to_map ((fun n => (n, Opaque)) <$> hooks_globals).

(** ** datetime: parsing, zone conversion and formatting *)

Module Datetime.

(** A naive [datetime] with minute resolution (seconds are zero after
    [strptime] with this format). *)
Record datetime : Type := {
  year : Z; month : Z; day : Z; hour : Z; minute : Z
}.

Definition is_leap (y : Z) : bool :=
  ((y mod 4 =? 0) && negb (y mod 100 =? 0)) || (y mod 400 =? 0).

Definition days_in_month (y m : Z) : Z :=
  if m =? 2 then (if is_leap y then 29 else 28)
  else if (m =? 4) || (m =? 6) || (m =? 9) || (m =? 11) then 30
  else 31.

(** The checks of the [datetime] constructor. *)
Definition valid (d : datetime) : bool :=
  (1 <=? year d) && (year d <=? 9999) && (1 <=? month d) && (month d <=? 12)
  && (1 <=? day d) && (day d <=? days_in_month (year d) (month d))
  && (0 <=? hour d) && (hour d <=? 23) && (0 <=? minute d) && (minute d <=? 59).

(** Days since 1970-01-01 in the proleptic Gregorian calendar. *)
Definition days_from_civil (y m d : Z) : Z :=
  let y := if m <=? 2 then y - 1 else y in
  let era := y / 400 in
  let yoe := y - era * 400 in
  let doy := (153 * (if 2 <? m then m - 3 else m + 9) + 2) / 5 + d - 1 in
  let doe := yoe * 365 + yoe / 4 - yoe / 100 + doy in
  era * 146097 + doe - 719468.

Definition civil_from_days (z : Z) : Z * Z * Z :=
  let z := z + 719468 in
  let era := z / 146097 in
  let doe := z - era * 146097 in
  let yoe := (doe - doe / 1460 + doe / 36524 - doe / 146096) / 365 in
  let doy := doe - (365 * yoe + yoe / 4 - yoe / 100) in
  let mp := (5 * doy + 2) / 153 in
  let d := doy - (153 * mp + 2) / 5 + 1 in
  let m := if mp <? 10 then mp + 3 else mp - 9 in
  ((if m <=? 2 then yoe + era * 400 + 1 else yoe + era * 400), m, d).

(** Seconds since the epoch of a datetime read as UTC. *)
Definition timestamp_utc (d : datetime) : Z :=
  ((days_from_civil (year d) (month d) (day d) * 24 + hour d) * 60 + minute d) * 60.

(** The wall-clock fields of an instant shifted by an offset. *)
Definition of_seconds (s : Z) : datetime :=
  let mins := s / 60 in
  let days := mins / 1440 in
  let rest := mins mod 1440 in
  let '(y, m, d) := civil_from_days days in
  {| year := y; month := m; day := d; hour := rest / 60; minute := rest mod 60 |}.

(** A field of the regular expression [strptime] builds from a format. *)
Definition field := string -> option (Z * string).

Definition range (lo hi : ascii) (c : ascii) : bool :=
  ((nat_of_ascii lo <=? nat_of_ascii c) && (nat_of_ascii c <=? nat_of_ascii hi))%nat.

Definition one (p : ascii -> bool) : field := fun s =>
  match s with
  | String c r => if p c then Some (digit_val c, r) else None
  | EmptyString => None
  end.

Definition two (p q : ascii -> bool) : field := fun s =>
  match s with
  | String c (String d r) =>
      if p c && q d then Some (10 * digit_val c + digit_val d, r) else None
  | _ => None
  end.

Definition spaced (p : ascii -> bool) : field := fun s =>
  match s with
  | String " " r => one p r
  | _ => None
  end.

(** Ordered alternation followed by the rest of the pattern: the first
    alternative after which the rest matches wins. *)
Fixpoint alt {A : Type} (fs : list field) (k : Z -> string -> option A)
    (s : string) : option A :=
  match fs with
  | [] => None
  | f :: rest =>
      match f s ≫= (fun '(v, r) => k v r) with
      | Some a => Some a
      | None => alt rest k s
      end
  end.

Definition lit {A : Type} (c : ascii) (k : string -> option A) (s : string) : option A :=
  match s with
  | String d r => if Ascii.eqb c d then k r else None
  | EmptyString => None
  end.

(** [%Y]: [\d\d\d\d] *)
Definition year4 : field := fun s =>
  match s with
  | String a (String b (String c (String d r))) =>
      if is_digit a && is_digit b && is_digit c && is_digit d
      then Some (1000 * digit_val a + 100 * digit_val b + 10 * digit_val c + digit_val d, r)
      else None
  | _ => None
  end.

(** [%m]: [1[0-2]|0[1-9]|[1-9]] *)
Definition re_m : list field :=
  [two (range "1" "1") (range "0" "2"); two (range "0" "0") (range "1" "9");
   one (range "1" "9")].

(** [%d]: [3[01]|[12]\d|0[1-9]|[1-9]| [1-9]] *)
Definition re_d : list field :=
  [two (range "3" "3") (range "0" "1"); two (range "1" "2") is_digit;
   two (range "0" "0") (range "1" "9"); one (range "1" "9");
   spaced (range "1" "9")].

(** [%H]: [2[0-3]|[0-1]\d|\d] *)
Definition re_H : list field :=
  [two (range "2" "2") (range "0" "3"); two (range "0" "1") is_digit; one is_digit].

(** [%M]: [[0-5]\d|\d] *)
Definition re_M : list field := [two (range "0" "5") is_digit; one is_digit].

(** The match of the pattern for ["%Y-%m-%d:%H-%M"] at the start of the
    string, with what it leaves unread. *)
Definition format_match (s : string) : option (datetime * string) :=
  '(y, s) ← year4 s;
  lit "-" (alt re_m (fun m => lit "-" (alt re_d (fun d => lit ":"
    (alt re_H (fun h => lit "-" (alt re_M (fun mi r =>
      Some ({| year := y; month := m; day := d; hour := h; minute := mi |}, r))))))))) s.

(** [datetime.strptime(s, "%Y-%m-%d:%H-%M")]; [None] is [ValueError]:
    no match, unconverted data, or a date that does not exist. *)
Definition strptime (s : string) : option datetime :=
  '(d, r) ← format_match s;
  if String.eqb r "" && valid d then Some d else None.

Fixpoint zeros (n : nat) : string :=
  match n with
  | O => EmptyString
  | S k => String "0" (zeros k)
  end.

(** [s.zfill(width)] for the digits of a number that is not negative. *)
Definition zfill (width : nat) (s : string) : string :=
  zeros (width - String.length s) +:+ s.

(** [d.strftime("%Y-%m-%d:%H-%M")]: the C library renders [%Y] without
    padding, so a year below 1000 has fewer than four digits; the other
    fields have two. *)
Definition strftime (d : datetime) : string :=
  pretty (year d) +:+ "-" +:+ zfill 2 (pretty (month d)) +:+ "-"
  +:+ zfill 2 (pretty (day d)) +:+ ":" +:+ zfill 2 (pretty (hour d)) +:+ "-"
  +:+ zfill 2 (pretty (minute d)).

(** [d.replace(tzinfo=UTC).astimezone(ZoneInfo(key))]: the zone must be
    known and the local date must stay within the years 1..9999. *)
Definition astimezone (tz : string -> option (Z -> Z)) (key : string) (d : datetime)
  : exn + datetime :=
  match tz key with
  | None => inl (KeyError key)
  | Some offset =>
      let t := timestamp_utc d in
      let l := of_seconds (t + offset t) in
      if (1 <=? year l) && (year l <=? 9999) then inr l else inl OverflowError
  end.

End Datetime.
Import Datetime.

(** ** views.py *)

Module Views.

(** What a handler did: its outcome and the outbound requests it sent. *)
Definition run : Type := outcome * list outbound.

Definition quiet (o : outcome) : run := (o, []).

(** [_authenticate_user(username, password)]: the user, or [None]. *)
Definition _authenticate_user (d : database) (uname password : string) : option User :=
  match users d !! uname with
  | Some user =>
      let xc_password := or_empty (user_custom_properties user) !! "xc_password" in
      match xc_password with
      | Some v =>
          if negb (truthy v) then None
          else if negb (eq_str v password) then None
          else Some user
      | None => None
      end
  | None => None
  end.

(** [_find_channel_by_provider_stream_id(provider_stream_id)]; [None] is
    the pair [(None, None)]. *)
Definition _find_channel_by_provider_stream_id (d : database) (provider_stream_id : string)
  : option (Channel * Stream) :=
  match first (xc_streams_with_provider_id d provider_stream_id) with
  | Some stream =>
      match first (stream_channels d stream) with
      | Some channel => Some (channel, stream)
      | None => None
      end
  | None => None
  end.

(** [_convert_timestamp_to_local(timestamp, timezone_str)]: every
    exception of the [try] block ends in [return timestamp]. *)
Definition _convert_timestamp_to_local (tz : string -> option (Z -> Z))
    (timestamp timezone_str : string) : string :=
  match strptime timestamp with
  | Some utc_time =>
      match astimezone tz timezone_str utc_time with
      | inr local_time => strftime local_time
      | inl _ => timestamp
      end
  | None => timestamp
  end.

Definition copy_header (src : gmap string string) (dst : gmap string string)
    (name : string) : gmap string string :=
  match header_get src name with
  | Some v => <[name := v]> dst
  | None => dst
  end.

(** [_proxy_stream(request, url, user_agent)]. The body preview read in
    the error branch only feeds the log. *)
Definition _proxy_stream (w : world) (req : request) (url user_agent : string) : run :=
  let headers : gmap string string := {[ "User-Agent" := user_agent ]} in
  let headers :=
    match META req !! "HTTP_RANGE" with
    | Some range_header =>
        if String.eqb range_header "" then headers
        else <["Range" := range_header]> headers
    | None => headers
    end in
  let get := {| out_url := url; out_headers := headers;
                out_stream := true; out_timeout := 10 |} in
  let o :=
    match upstream w get with
    | GetResponse response =>
        if negb ((status_code response =? 200) || (status_code response =? 206))
        then Returns (HttpResponseBadRequest
                        ("Provider error: " +:+ pretty (status_code response)))
        else
          let chunks := List.filter (fun c => negb (String.eqb c ""))
                                    (iter_content response) in
          let content_type :=
            default "video/mp2t" (header_get (resp_headers response) "Content-Type") in
          Returns (StreamingHttpResponse chunks content_type (status_code response)
                     (foldl (copy_header (resp_headers response)) ∅
                            ["Content-Length"; "Content-Range"; "Accept-Ranges"]))
    | GetTimeout => Returns (HttpResponseBadRequest "Provider timeout")
    | GetConnectionError => Returns (HttpResponseBadRequest "Provider connection error")
    | GetRequestException => Returns (HttpResponseBadRequest "Provider connection error")
    | GetRaises e => Raises e
    end in
  (o, [get]).

Definition substitute (url : string) (kv : string * string) : string :=
  replace ("{" +:+ kv.1 +:+ "}") kv.2 url.

(** Steps 5 to 9 of [timeshift_proxy], once [has_catchup] holds. *)
Definition proxy_from_provider (ns : namespace) (w : world) (req : request)
    (stream : Stream) (props : dict) (timestamp : string) : run :=
  match m3u_account stream with
  | Some acc =>
      if negb (String.eqb (account_type acc) "XC")
      then quiet (Returns (HttpResponseBadRequest "Channel not from Xtream Codes provider"))
      else
        match import_from ns "_get_plugin_config" with
        | inl e => quiet (Raises e)
        | inr (FnConfig get_config) =>
            let plugin_config := get_config () in
            match plugin_config !! "timezone" with
            | None => quiet (Raises (KeyError "timezone"))
            | Some timezone_str =>
                let local_timestamp :=
                  _convert_timestamp_to_local (tzdata w) timestamp timezone_str in
                match plugin_config !! "catchup_url_template" with
                | None => quiet (Raises (KeyError "catchup_url_template"))
                | Some url_template =>
                    let placeholders :=
                      [ ("server.url", rstrip "/" (server_url acc));
                        ("XC.username", m3u_username acc);
                        ("XC.password", m3u_password acc);
                        ("stream_id", str_of (props !! "stream_id"));
                        ("program.starttime", local_timestamp);
                        ("program.duration", "120") ] in
                    let timeshift_url := foldl substitute url_template placeholders in
                    _proxy_stream w req timeshift_url (m3u_user_agent acc)
                end
            end
        | inr _ => quiet (Raises TypeError)
        end
  | None => quiet (Returns (HttpResponseBadRequest "Channel not from Xtream Codes provider"))
  end.

(** Step 4 of [timeshift_proxy] and what follows it. *)
Definition check_catchup (ns : namespace) (w : world) (req : request)
    (stream : Stream) (timestamp : string) : run :=
  match import_from ns "_has_catchup_support" with
  | inl e => quiet (Raises e)
  | inr (FnOfProps _has_catchup_support) =>
      let props := or_empty (stream_custom_properties stream) in
      let '(has_catchup, _) := _has_catchup_support props in
      if negb (truthy has_catchup)
      then quiet (Returns (HttpResponseBadRequest
                             "Catchup/timeshift not supported for this channel"))
      else proxy_from_provider ns w req stream props timestamp
  | inr _ => quiet (Raises TypeError)
  end.

(** [timeshift_proxy(request, username, password, stream_id, timestamp,
    duration)], with the namespace [from .hooks import ...] reads. *)
Definition timeshift_proxy_in (ns : namespace) (w : world) (req : request)
    (uname password stream_id timestamp duration : string) : run :=
  let provider_stream_id := rstrip ".ts" duration in
  match _authenticate_user (db w) uname password with
  | None => quiet (Returns (HttpResponseForbidden "Invalid credentials"))
  | Some user =>
      match _find_channel_by_provider_stream_id (db w) provider_stream_id with
      | None => quiet (Raises (Http404 "Channel not found"))
      | Some (channel, stream) =>
          if user_level user <? channel_user_level channel
          then quiet (Returns (HttpResponseForbidden "Access denied"))
          else check_catchup ns w req stream timestamp
      end
  end.

(** The handler as deployed: the import reads the hooks module itself. *)
Definition timeshift_proxy : world -> request -> string -> string -> string
    -> string -> string -> run :=
  timeshift_proxy_in hooks_module.

End Views.

(** ** hooks.py *)

Module Hooks.

(** [_is_plugin_enabled()]: any exception reads as disabled. *)
Definition _is_plugin_enabled (w : world) : bool :=
  match plugin_row w with
  | inr enabled => enabled
  | inl _ => false
  end.

(** *** The catalog listing *)

(** How the [try] block of the loop body ended for one entry. *)
Inductive step_end : Type :=
| Enhanced
| Skipped
| Failed (e : exn).

(** [Channel.objects.filter(id=v).first()] for the value read with
    [stream_data.get('stream_id')]: [None] matches no row, and a value
    that is no integer makes the lookup raise. *)
Definition channel_for (d : database) (v : option jvalue) : exn + option Channel :=
  match v with
  | None | Some JNull => inr None
  | Some x =>
      match int_of x with
      | inr i => inr (first (channels_by_id d i))
      | inl e => inl e
      end
  end.

(** The body of the [for] loop on one entry: the entry as the body leaves
    it, and how the body ended. Each assignment to [stream_data] takes
    effect when it is executed. *)
Definition enhance (d : database) (stream_data : dict) : dict * step_end :=
  match channel_for d (stream_data !! "stream_id") with
  | inl e => (stream_data, Failed e)
  | inr None => (stream_data, Skipped)
  | inr (Some channel) =>
      match first_ordered_stream d channel with
      | None => (stream_data, Skipped)
      | Some first_stream =>
          let props := or_empty (stream_custom_properties first_stream) in
          match int_of (default (JInt 0) (props !! "tv_archive")) with
          | inl e => (stream_data, Failed e)
          | inr a =>
              let sd1 := <["tv_archive" := JInt a]> stream_data in
              match int_of (default (JInt 0) (props !! "tv_archive_duration")) with
              | inl e => (sd1, Failed e)
              | inr b =>
                  let sd2 := <["tv_archive_duration" := JInt b]> sd1 in
                  match props !! "stream_id" with
                  | Some provider_stream_id =>
                      if truthy provider_stream_id then
                        match int_of provider_stream_id with
                        | inl e => (sd2, Failed e)
                        | inr i => (<["stream_id" := JInt i]> sd2, Enhanced)
                        end
                      else (sd2, Enhanced)
                  | None => (sd2, Enhanced)
                  end
              end
          end
      end
  end.

(** The [for] loop: the [except] clause swallows the failure of an entry
    and the loop goes on with the next one. *)
Fixpoint enhance_all (d : database) (streams : list dict) : list dict :=
  match streams with
  | [] => []
  | stream_data :: rest => (enhance d stream_data).1 :: enhance_all d rest
  end.

(** *** Function objects and calls through patched attributes *)

(** A function object: one of the host, or the closure made by the k-th
    [def] the patch functions executed. *)
Inductive callable : Type :=
| HostFn (name : string)
| PatchedLiveStreams (k : nat)
| PatchedStreamXc (k : nat)
| PatchedResolve (k : nat).

Definition callable_eqb (f g : callable) : bool :=
  match f, g with
  | HostFn a, HostFn b => String.eqb a b
  | PatchedLiveStreams a, PatchedLiveStreams b
  | PatchedStreamXc a, PatchedStreamXc b
  | PatchedResolve a, PatchedResolve b => Nat.eqb a b
  | _, _ => false
  end.

(** The result of a call and the function objects entered while it ran. *)
Definition traced (A : Type) : Type := (exn + A) * list callable.

Definition enter {A : Type} (f : callable) (r : traced A) : traced A :=
  (r.1, f :: r.2).

(** [patched_xc_get_live_streams(request, user, category_id)], given the
    call of [_original_xc_get_live_streams]. *)
Definition patched_xc_get_live_streams (w : world)
    (_original_xc_get_live_streams : traced (list dict)) : traced (list dict) :=
  match _original_xc_get_live_streams with
  | (inr streams, t) =>
      if negb (_is_plugin_enabled w) then (inr streams, t)
      else (inr (enhance_all (db w) streams), t)
  | (inl e, t) => (inl e, t)
  end.

(** *** Live playback *)

(** The provider-id branch of [patched_stream_xc]: the first XC stream
    whose [stream_id] property is the identifier, then its first channel. *)
Definition by_provider_stream_id (d : database) (channel_id_str : string)
  : option Channel :=
  match first (xc_streams_with_provider_id d channel_id_str) with
  | Some stream => first (stream_channels d stream)
  | None => None
  end.

(** The fallback of [patched_stream_xc]: [int(channel_id_str)] inside
    [try ... except (ValueError, TypeError): pass], then one of three
    queries. *)
Definition by_internal_id (d : database) (user : User) (channel_id_str : string)
  : option Channel :=
  match int_of_str channel_id_str with
  | Some internal_id =>
      if user_level user <? 10 then
        let user_profile_count := length (channel_profiles user) in
        if (user_profile_count =? 0)%nat
        then first (channels_by_id_level d internal_id (user_level user))
        else first (channels_by_id_level_profiles d internal_id (user_level user)
                      (channel_profiles user))
      else first (channels_by_id d internal_id)
  | None => None
  end.

(** The value of [channel] when the lookups of [patched_stream_xc] end. *)
Definition find_channel (d : database) (user : User) (channel_id_str : string)
  : option Channel :=
  match by_provider_stream_id d channel_id_str with
  | Some channel => Some channel
  | None => by_internal_id d user channel_id_str
  end.

(** [patched_stream_xc(request, username, password, channel_id)], given
    the function [_original_stream_xc] names when it is called. *)
Definition patched_stream_xc (w : world)
    (_original_stream_xc : string -> string -> string -> traced response)
    (uname password channel_id : string) : traced response :=
  if negb (_is_plugin_enabled w) then _original_stream_xc uname password channel_id
  else
    match users (db w) !! uname with
    | None => (inl (Http404 "No User matches the given query."), [])
    | Some user =>
        let channel_id_str := stem channel_id in
        let custom_properties := or_empty (user_custom_properties user) in
        match custom_properties !! "xc_password" with
        | None => (inr (Response "Invalid credentials" 401), [])
        | Some xc_password =>
            if negb (eq_str xc_password password)
            then (inr (Response "Invalid credentials" 401), [])
            else
              match find_channel (db w) user channel_id_str with
              | None => (inr (Response "Not found" 404), [])
              | Some channel =>
                  if user_level user <? channel_user_level channel
                  then (inr (Response "Not found" 404), [])
                  else (inr (HostResponse "stream_ts" [channel_uuid channel]),
                        [HostFn "stream_ts"])
              end
        end
    end.

(** *** URL interception *)

(** [match.groupdict()] *)
Record groups : Type := {
  g_username : string;
  g_password : string;
  g_stream_id : string;
  g_timestamp : string;
  g_duration : string
}.

Definition nonempty (s : string) : bool := negb (String.eqb s "").

Definition digits1 (s : string) : bool := nonempty s && all_chars is_digit s.

(** [[\d\-:]+] *)
Definition timestamp_token (s : string) : bool :=
  nonempty s
  && all_chars (fun c => is_digit c || Ascii.eqb c "-" || Ascii.eqb c ":") s.

(** [(?P<duration>\d+)\.ts$] on the last segment: [$] also matches just
    before a newline that ends the string. *)
Definition duration_ts (s : string) : option string :=
  let s := match String.rev s with
           | String "010" r => String.rev r
           | _ => s
           end in
  match String.rev s with
  | String "s" (String "t" (String "." r)) =>
      let digits := String.rev r in
      if digits1 digits then Some digits else None
  | _ => None
  end.

(** [TIMESHIFT_PATTERN.match(path)]: no class of the pattern admits a
    slash, so the match is decided segment by segment. *)
Definition TIMESHIFT_PATTERN (path : string) : option groups :=
  let rest := match path with
              | String "/" r => r
              | _ => path
              end in
  match split "/" rest with
  | [t; u; p; sid; ts; last] =>
      if String.eqb t "timeshift" && nonempty u && nonempty p && digits1 sid
         && timestamp_token ts
      then d ← duration_ts last;
           Some {| g_username := u; g_password := p; g_stream_id := sid;
                   g_timestamp := ts; g_duration := d |}
      else None
  | _ => None
  end.

(** [django.urls.ResolverMatch]: the view by its name, the positional
    and keyword arguments, the route, and [extra_kwargs], which is
    [None] unless the constructor is given one. The names, namespaces
    and tried patterns it also records take no part in resolution. *)
Record resolver_match : Type := {
  func : string;
  args : list string;
  kwargs : list (string * string);
  route : string;
  extra_kwargs : option (list (string * string))
}.

Definition groupdict (g : groups) : list (string * string) :=
  [ ("username", g_username g); ("password", g_password g);
    ("stream_id", g_stream_id g); ("timestamp", g_timestamp g);
    ("duration", g_duration g) ].

(** [patched_resolve(self, path)], given the function [_original_resolve]
    names when it is called. *)
Definition patched_resolve (w : world)
    (_original_resolve : string -> traced resolver_match) (path : string)
  : traced resolver_match :=
  if _is_plugin_enabled w
     && (startswith "/timeshift/" path || startswith "timeshift/" path)
  then
    match TIMESHIFT_PATTERN path with
    | Some m =>
        (inr {| func := "timeshift_proxy"; args := []; kwargs := groupdict m;
                route := path; extra_kwargs := None |}, [])
    | None => _original_resolve path
    end
  else _original_resolve path.

(** *** The host's resolver: django.urls.resolvers *)

(** A URL configuration. A URL pattern has a route, the match of its
    pattern (captured positional and keyword arguments), a view and
    default arguments; an included resolver has a route, the match of
    its prefix (what is left of the path, and captured arguments),
    default keyword arguments and its own patterns. *)
Inductive urlconf : Type :=
| URLPattern (route_ : string)
    (pmatch : string -> option (list string * list (string * string)))
    (callback : string) (default_args : list (string * string))
| Include (r : URLResolver)
with URLResolver : Type :=
| Resolver (route_ : string)
    (pmatch : string -> option (string * list string * list (string * string)))
    (default_kwargs : list (string * string)) (url_patterns : list urlconf).

(** [d[k] = v] on a mapping kept in insertion order. *)
Fixpoint dict_set (k v : string) (d : list (string * string)) : list (string * string) :=
  match d with
  | [] => [(k, v)]
  | (k', v') :: r =>
      if String.eqb k k' then (k', v) :: r else (k', v') :: dict_set k v r
  end.

(** [{**d, **e}], and [d.update(e)] *)
Definition dict_update (d e : list (string * string)) : list (string * string) :=
  foldl (fun acc kv => dict_set kv.1 kv.2 acc) d e.

(** [URLPattern.resolve(path)]: a match, or [None]. *)
Definition URLPattern_resolve (route_ : string)
    (pmatch : string -> option (list string * list (string * string)))
    (callback : string) (default_args : list (string * string)) (path : string)
  : option resolver_match :=
  match pmatch path with
  | Some (a, captured_kwargs) =>
      Some {| func := callback; args := a;
              kwargs := dict_update captured_kwargs default_args;
              route := route_; extra_kwargs := Some default_args |}
  | None => None
  end.

(** [_join_route(route1, route2)] *)
Definition join_route (route1 route2 : string) : string :=
  if String.eqb route1 "" then route2
  else route1 +:+ match route2 with
                  | String "^" r => r
                  | _ => route2
                  end.

(** What [URLResolver.resolve] returns for a sub-match: the arguments
    of the resolver merged with those of the sub-match. Unpacking
    [**sub_match.extra_kwargs] raises [TypeError] when it is [None]. *)
Definition merge_sub_match (current_route : string) (a : list string)
    (kw default_kwargs : list (string * string)) (sub_match : resolver_match)
  : exn + resolver_match :=
  let sub_match_dict := dict_update (dict_update kw default_kwargs) (kwargs sub_match) in
  let sub_match_args :=
    match sub_match_dict with
    | [] => (a ++ args sub_match)%list
    | _ => args sub_match
    end in
  match extra_kwargs sub_match with
  | Some extra =>
      inr {| func := func sub_match; args := sub_match_args;
             kwargs := sub_match_dict;
             route := join_route current_route (route sub_match);
             extra_kwargs := Some (dict_update default_kwargs extra) |}
  | None => inl TypeError
  end.

(** The loop of [URLResolver.resolve] over [self.url_patterns]:
    [pattern.resolve(new_path)] on an included resolver is the call
    [resolve_nested]; its [Resolver404] moves the loop on, any other
    exception leaves it. *)
Fixpoint resolve_patterns
    (resolve_nested : URLResolver -> string -> traced resolver_match)
    (a : list string) (kw default_kwargs : list (string * string))
    (new_path : string) (patterns : list urlconf) : traced resolver_match :=
  match patterns with
  | [] => (inl (Resolver404 new_path), [])
  | URLPattern route_ pmatch callback default_args :: rest =>
      match URLPattern_resolve route_ pmatch callback default_args new_path with
      | Some sub_match => (merge_sub_match "" a kw default_kwargs sub_match, [])
      | None => resolve_patterns resolve_nested a kw default_kwargs new_path rest
      end
  | Include (Resolver route_ _ _ _ as r) :: rest =>
      match resolve_nested r new_path with
      | (inl (Resolver404 _), t) =>
          let next := resolve_patterns resolve_nested a kw default_kwargs new_path rest in
          (next.1, (t ++ next.2)%list)
      | (inl e, t) => (inl e, t)
      | (inr sub_match, t) =>
          (merge_sub_match route_ a kw default_kwargs sub_match, t)
      end
  end.

(** Django's own [URLResolver.resolve(self, path)]. *)
Definition django_resolve
    (resolve_nested : URLResolver -> string -> traced resolver_match)
    (self : URLResolver) (path : string) : traced resolver_match :=
  match self with
  | Resolver _ pmatch default_kwargs url_patterns =>
      match pmatch path with
      | Some (new_path, a, kw) =>
          resolve_patterns resolve_nested a kw default_kwargs new_path url_patterns
      | None => (inl (Resolver404 path), [])
      end
  end.

(** *** Installing and removing the patches *)

(** An element of [dispatcharr.urls.urlpatterns]: a URL pattern has a
    [callback], an included resolver has none. *)
Record url_entry : Type := {
  entry_id : N;
  entry_name : string;
  entry_callback : option callable
}.

(** The attributes of the host that the plugin assigns, the module
    globals of hooks.py, the number of closures made so far, and the
    modules whose import succeeds. *)
Record state : Type := {
  xc_get_live_streams : callable;
  stream_xc : callable;
  urlpatterns : list url_entry;
  URLResolver_resolve : callable;
  _original_xc_get_live_streams : option callable;
  _original_stream_xc : option callable;
  _original_url_callbacks : gmap N callable;
  _original_resolve : option callable;
  closures : nat;
  importable : string -> bool
}.

(** A statement: it may raise, and what it assigned before stays. *)
Definition stmt (A : Type) : Type := state -> (exn + A) * state.

Definition ret {A : Type} (a : A) : stmt A := fun s => (inr a, s).

Definition bind {A B : Type} (m : stmt A) (k : A -> stmt B) : stmt B :=
  fun s => match m s with
           | (inr a, s') => k a s'
           | (inl e, s') => (inl e, s')
           end.

Notation "x <~ m ;; k" := (bind m (fun x => k))
  (at level 200, m at level 99, right associativity).
Notation "m ;;; k" := (bind m (fun _ => k))
  (at level 200, right associativity).

Definition get {A : Type} (f : state -> A) : stmt A := fun s => (inr (f s), s).

Definition modify (f : state -> state) : stmt unit := fun s => (inr tt, f s).

(** [import m] / [from m import ...] *)
Definition import (m : string) : stmt unit :=
  fun s => if importable s m then (inr tt, s) else (inl (ImportError m), s).

(** The closure a [def] statement makes: a fresh function object. *)
Definition def (mk : nat -> callable) : stmt callable :=
  fun s => (inr (mk (closures s)),
            {| xc_get_live_streams := xc_get_live_streams s;
               stream_xc := stream_xc s;
               urlpatterns := urlpatterns s;
               URLResolver_resolve := URLResolver_resolve s;
               _original_xc_get_live_streams := _original_xc_get_live_streams s;
               _original_stream_xc := _original_stream_xc s;
               _original_url_callbacks := _original_url_callbacks s;
               _original_resolve := _original_resolve s;
               closures := S (closures s);
               importable := importable s |}).

Definition set_xc_get_live_streams (f : callable) (s : state) : state :=
  {| xc_get_live_streams := f;
     stream_xc := stream_xc s;
     urlpatterns := urlpatterns s;
     URLResolver_resolve := URLResolver_resolve s;
     _original_xc_get_live_streams := _original_xc_get_live_streams s;
     _original_stream_xc := _original_stream_xc s;
     _original_url_callbacks := _original_url_callbacks s;
     _original_resolve := _original_resolve s;
     closures := closures s;
     importable := importable s |}.

Definition set_stream_xc (f : callable) (s : state) : state :=
  {| xc_get_live_streams := xc_get_live_streams s;
     stream_xc := f;
     urlpatterns := urlpatterns s;
     URLResolver_resolve := URLResolver_resolve s;
     _original_xc_get_live_streams := _original_xc_get_live_streams s;
     _original_stream_xc := _original_stream_xc s;
     _original_url_callbacks := _original_url_callbacks s;
     _original_resolve := _original_resolve s;
     closures := closures s;
     importable := importable s |}.

Definition set_urlpatterns (l : list url_entry) (s : state) : state :=
  {| xc_get_live_streams := xc_get_live_streams s;
     stream_xc := stream_xc s;
     urlpatterns := l;
     URLResolver_resolve := URLResolver_resolve s;
     _original_xc_get_live_streams := _original_xc_get_live_streams s;
     _original_stream_xc := _original_stream_xc s;
     _original_url_callbacks := _original_url_callbacks s;
     _original_resolve := _original_resolve s;
     closures := closures s;
     importable := importable s |}.

Definition set_URLResolver_resolve (f : callable) (s : state) : state :=
  {| xc_get_live_streams := xc_get_live_streams s;
     stream_xc := stream_xc s;
     urlpatterns := urlpatterns s;
     URLResolver_resolve := f;
     _original_xc_get_live_streams := _original_xc_get_live_streams s;
     _original_stream_xc := _original_stream_xc s;
     _original_url_callbacks := _original_url_callbacks s;
     _original_resolve := _original_resolve s;
     closures := closures s;
     importable := importable s |}.

Definition set_original_xc_get_live_streams (f : option callable) (s : state) : state :=
  {| xc_get_live_streams := xc_get_live_streams s;
     stream_xc := stream_xc s;
     urlpatterns := urlpatterns s;
     URLResolver_resolve := URLResolver_resolve s;
     _original_xc_get_live_streams := f;
     _original_stream_xc := _original_stream_xc s;
     _original_url_callbacks := _original_url_callbacks s;
     _original_resolve := _original_resolve s;
     closures := closures s;
     importable := importable s |}.

Definition set_original_stream_xc (f : option callable) (s : state) : state :=
  {| xc_get_live_streams := xc_get_live_streams s;
     stream_xc := stream_xc s;
     urlpatterns := urlpatterns s;
     URLResolver_resolve := URLResolver_resolve s;
     _original_xc_get_live_streams := _original_xc_get_live_streams s;
     _original_stream_xc := f;
     _original_url_callbacks := _original_url_callbacks s;
     _original_resolve := _original_resolve s;
     closures := closures s;
     importable := importable s |}.

Definition set_original_url_callbacks (m : gmap N callable) (s : state) : state :=
  {| xc_get_live_streams := xc_get_live_streams s;
     stream_xc := stream_xc s;
     urlpatterns := urlpatterns s;
     URLResolver_resolve := URLResolver_resolve s;
     _original_xc_get_live_streams := _original_xc_get_live_streams s;
     _original_stream_xc := _original_stream_xc s;
     _original_url_callbacks := m;
     _original_resolve := _original_resolve s;
     closures := closures s;
     importable := importable s |}.

Definition set_original_resolve (f : option callable) (s : state) : state :=
  {| xc_get_live_streams := xc_get_live_streams s;
     stream_xc := stream_xc s;
     urlpatterns := urlpatterns s;
     URLResolver_resolve := URLResolver_resolve s;
     _original_xc_get_live_streams := _original_xc_get_live_streams s;
     _original_stream_xc := _original_stream_xc s;
     _original_url_callbacks := _original_url_callbacks s;
     _original_resolve := f;
     closures := closures s;
     importable := importable s |}.

(** [_patch_xc_get_live_streams()] *)
Definition _patch_xc_get_live_streams : stmt unit :=
  import "apps.output.views" ;;;
  original <~ get xc_get_live_streams ;;
  modify (set_original_xc_get_live_streams (Some original)) ;;;
  patched <~ def PatchedLiveStreams ;;
  modify (set_xc_get_live_streams patched).

(** [_restore_xc_get_live_streams()] *)
Definition _restore_xc_get_live_streams : stmt unit :=
  saved <~ get _original_xc_get_live_streams ;;
  match saved with
  | Some original =>
      import "apps.output.views" ;;;
      modify (set_xc_get_live_streams original) ;;;
      modify (set_original_xc_get_live_streams None)
  | None => ret tt
  end.

(** One turn of the loop over [urlpatterns] in [_patch_stream_xc]. *)
Definition patch_entry (original patched : callable)
    (acc : gmap N callable * list url_entry) (p : url_entry)
  : gmap N callable * list url_entry :=
  match entry_callback p with
  | Some cb =>
      if callable_eqb cb original
      then (<[entry_id p := original]> acc.1,
            (acc.2 ++ [{| entry_id := entry_id p; entry_name := entry_name p;
                          entry_callback := Some patched |}])%list)
      else (acc.1, (acc.2 ++ [p])%list)
  | None => (acc.1, (acc.2 ++ [p])%list)
  end.

(** [_patch_stream_xc()] *)
Definition _patch_stream_xc : stmt unit :=
  import "apps.proxy.ts_proxy.views" ;;;
  import "dispatcharr.urls" ;;;
  original <~ get stream_xc ;;
  modify (set_original_stream_xc (Some original)) ;;;
  patched <~ def PatchedStreamXc ;;
  modify (set_stream_xc patched) ;;;
  patterns <~ get urlpatterns ;;
  callbacks <~ get _original_url_callbacks ;;
  let r := foldl (patch_entry original patched) (callbacks, []) patterns in
  modify (set_original_url_callbacks r.1) ;;;
  modify (set_urlpatterns r.2).

(** One turn of the loop over [urlpatterns] in [_restore_stream_xc]. *)
Definition restore_entry (callbacks : gmap N callable) (p : url_entry) : url_entry :=
  match callbacks !! entry_id p with
  | Some cb => {| entry_id := entry_id p; entry_name := entry_name p;
                  entry_callback := Some cb |}
  | None => p
  end.

(** [_restore_stream_xc()] *)
Definition _restore_stream_xc : stmt unit :=
  saved <~ get _original_stream_xc ;;
  match saved with
  | Some original =>
      import "apps.proxy.ts_proxy.views" ;;;
      import "dispatcharr.urls" ;;;
      modify (set_stream_xc original) ;;;
      patterns <~ get urlpatterns ;;
      callbacks <~ get _original_url_callbacks ;;
      modify (set_urlpatterns (restore_entry callbacks <$> patterns)) ;;;
      modify (set_original_url_callbacks ∅) ;;;
      modify (set_original_stream_xc None)
  | None => ret tt
  end.

(** [_patch_url_resolver()] *)
Definition _patch_url_resolver : stmt unit :=
  import "django.urls.resolvers" ;;;
  saved <~ get _original_resolve ;;
  match saved with
  | Some _ => ret tt
  | None =>
      import "dispatcharr_timeshift.views" ;;;
      original <~ get URLResolver_resolve ;;
      modify (set_original_resolve (Some original)) ;;;
      patched <~ def PatchedResolve ;;
      modify (set_URLResolver_resolve patched)
  end.

(** [_restore_url_resolver()] *)
Definition _restore_url_resolver : stmt unit :=
  saved <~ get _original_resolve ;;
  match saved with
  | Some original =>
      import "django.urls.resolvers" ;;;
      modify (set_URLResolver_resolve original) ;;;
      modify (set_original_resolve None)
  | None => ret tt
  end.

(** [install_hooks()]: [True] unless a patch function raised. *)
Definition install_hooks : state -> bool * state :=
  fun s =>
    match (_patch_xc_get_live_streams ;;; _patch_stream_xc ;;; _patch_url_resolver) s with
    | (inr _, s') => (true, s')
    | (inl _, s') => (false, s')
    end.

(** [uninstall_hooks()] *)
Definition uninstall_hooks : stmt unit :=
  _restore_xc_get_live_streams ;;; _restore_stream_xc ;;; _restore_url_resolver.

(** *** Calling through the patched attributes *)

Section Calls.

(** The world of the request, the patch state at the time of the call,
    and what the functions of the host return. *)
Variable w : world.
Variable s : state.
Variable host_streams : string -> exn + list dict.

(** A call of a function object in the role of [xc_get_live_streams];
    [depth] is the room left on the interpreter stack. A patched closure
    reads the global [_original_xc_get_live_streams] when it runs. *)
Fixpoint call_xc_get_live_streams (depth : nat) (f : callable) : traced (list dict) :=
  match depth with
  | O => (inl RecursionError, [])
  | S d =>
      match f with
      | HostFn n => (host_streams n, [f])
      | PatchedLiveStreams _ =>
          enter f (patched_xc_get_live_streams w
                     match _original_xc_get_live_streams s with
                     | Some g => call_xc_get_live_streams d g
                     | None => (inl TypeError, [])
                     end)
      | _ => (inl TypeError, [f])
      end
  end.

(** A call of a function object in the role of [stream_xc]. *)
Fixpoint call_stream_xc (depth : nat) (f : callable)
    (uname password channel_id : string) : traced response :=
  match depth with
  | O => (inl RecursionError, [])
  | S d =>
      match f with
      | HostFn n => (inr (HostResponse n [uname; password; channel_id]), [f])
      | PatchedStreamXc _ =>
          enter f (patched_stream_xc w
                     (fun u p c =>
                        match _original_stream_xc s with
                        | Some g => call_stream_xc d g u p c
                        | None => (inl TypeError, [])
                        end)
                     uname password channel_id)
      | _ => (inl TypeError, [f])
      end
  end.

(** A call of a function object in the role of [URLResolver.resolve] on
    the resolver [self]. The function of the host is Django's, and its
    loop calls [resolve] on an included resolver through the class: it
    runs whatever function the attribute [URLResolver.resolve] holds at
    that moment. *)
Fixpoint call_resolve (depth : nat) (f : callable) (self : URLResolver)
    (path : string) : traced resolver_match :=
  match depth with
  | O => (inl RecursionError, [])
  | S d =>
      match f with
      | HostFn _ =>
          enter f (django_resolve (call_resolve d (URLResolver_resolve s)) self path)
      | PatchedResolve _ =>
          enter f (patched_resolve w
                     (fun p =>
                        match _original_resolve s with
                        | Some g => call_resolve d g self p
                        | None => (inl TypeError, [])
                        end)
                     path)
      | _ => (inl TypeError, [f])
      end
  end.

End Calls.

End Hooks.
Import Views Hooks.

(** ** The claims of the specification, as written *)

Module Spec.

(** A channel a restricted user may be given by internal id, as the
    specification words it: profile membership, enabled flag and level. *)
Definition visible_as_stated (d : database) (user : User) (c : Channel) : bool :=
  (channel_user_level c <=? user_level user)
  && enabled_member d (channel_profiles user) c.

(** The same, with the case the code makes of a user without profiles:
    the level alone decides. *)
Definition visible_amended (d : database) (user : User) (c : Channel) : bool :=
  (channel_user_level c <=? user_level user)
  && match channel_profiles user with
     | [] => true
     | _ => enabled_member d (channel_profiles user) c
     end.

(** The provider-id branch: the first XC stream whose property-bag
    [stream_id] is the input string, with its first channel. *)
Definition provider_match (d : database) (input : string) : option (Channel * Stream) :=
  s ← head (List.filter (fun s => has_provider_id input s && is_xc s) (streams d));
  c ← head (List.filter (fun c => linked d c s) (channels d));
  Some (c, s).

(** Identifier resolution in its two ordered branches, over a notion of
    visibility for users below the unrestricted threshold. *)
Definition resolve (visible : database -> User -> Channel -> bool)
    (d : database) (user : User) (input : string) : option Channel :=
  match provider_match d input with
  | Some (channel, _) => Some channel
  | None =>
      match int_of_str input with
      | Some i =>
          head (List.filter
                  (fun c => (channel_id c =? i)
                            && ((10 <=? user_level user) || visible d user c))
                  (channels d))
      | None => None
      end
  end.

(** Authentication fails, as the handler shows it. *)
Definition auth_failure : run :=
  (Returns (HttpResponseForbidden "Invalid credentials"), []).

(** The user has no side-channel credential: none stored, or an empty one. *)
Definition no_xc_password (user : User) : Prop :=
  truthy_opt (or_empty (user_custom_properties user) !! "xc_password") = false.

(** The supplied password is not the stored credential. *)
Definition password_differs (user : User) (password : string) : Prop :=
  or_empty (user_custom_properties user) !! "xc_password" <> Some (JStr password).

(** The property bag the decoration of a catalog entry reads: that of the
    first stream of the channel the entry names, when both exist. *)
Definition entry_props (d : database) (stream_data : dict) : option dict :=
  match channel_for d (stream_data !! "stream_id") with
  | inr (Some channel) =>
      first_stream ← first_ordered_stream d channel;
      Some (or_empty (stream_custom_properties first_stream))
  | _ => None
  end.

(** [int(props.get(key, 0))] *)
Definition int_prop (props : dict) (key : string) : exn + Z :=
  int_of (default (JInt 0) (props !! key)).

(** The store with every primary password replaced. *)
Definition with_django_passwords (f : User -> string) (d : database) : database :=
  {| users := (fun u => {| username := username u; django_password := f u;
                           user_level := user_level u;
                           user_custom_properties := user_custom_properties u;
                           channel_profiles := channel_profiles u |}) <$> users d;
     streams := streams d; channels := channels d;
     channel_streams := channel_streams d; memberships := memberships d |}.

Definition in_store (d : database) (w : world) : world :=
  {| db := d; plugin_row := plugin_row w; upstream := upstream w;
     tzdata := tzdata w |}.

(** No patch is in place: hooks.py holds no saved reference. *)
Definition pristine (s : state) : Prop :=
  _original_xc_get_live_streams s = None
  /\ _original_stream_xc s = None
  /\ _original_url_callbacks s = ∅
  /\ _original_resolve s = None.

(** The modules the patch functions import. *)
Definition patch_imports : list string :=
  [ "apps.output.views"; "apps.proxy.ts_proxy.views"; "dispatcharr.urls";
    "django.urls.resolvers"; "dispatcharr_timeshift.views" ].

Definition all_importable (s : state) : Prop :=
  forall m, In m patch_imports -> importable s m = true.

(** The state [install_hooks] builds from a pristine one. *)
Definition installed (s : state) : state :=
  let patched := PatchedStreamXc (S (closures s)) in
  let r := foldl (patch_entry (stream_xc s) patched) (∅, []) (urlpatterns s) in
  {| xc_get_live_streams := PatchedLiveStreams (closures s);
     stream_xc := patched;
     urlpatterns := r.2;
     URLResolver_resolve := PatchedResolve (S (S (closures s)));
     _original_xc_get_live_streams := Some (xc_get_live_streams s);
     _original_stream_xc := Some (stream_xc s);
     _original_url_callbacks := r.1;
     _original_resolve := Some (URLResolver_resolve s);
     closures := S (S (S (closures s)));
     importable := importable s |}.

(** The pattern is one whose callback the patch replaces. *)
Definition routes_to (original : callable) (p : url_entry) : bool :=
  match entry_callback p with
  | Some cb => callable_eqb cb original
  | None => false
  end.

End Spec.

(** ** Concrete stores and requests *)

Module Sample.

Definition provider : M3UAccount :=
  {| account_type := "XC"; server_url := "http://provider.example:8080/";
     m3u_username := "acct"; m3u_password := "pw"; m3u_user_agent := "VLC/3.0" |}.

(** A stream whose provider id is 22371 and whose archive flag is 0. *)
Definition stream_22371 : Stream :=
  {| stream_pk := 1;
     stream_custom_properties :=
       Some (<["stream_id" := JStr "22371"]> (<["tv_archive" := JInt 0]> ∅));
     m3u_account := Some provider |}.

Definition news : Channel :=
  {| channel_id := 7; channel_uuid := "uuid-7"; channel_name := "News";
     channel_user_level := 1 |}.

(** A channel that asks for level 5. *)
Definition premium : Channel :=
  {| channel_id := 8; channel_uuid := "uuid-8"; channel_name := "Premium";
     channel_user_level := 5 |}.

Definition stream_900 : Stream :=
  {| stream_pk := 2;
     stream_custom_properties := Some (<["stream_id" := JStr "900"]> ∅);
     m3u_account := Some provider |}.

(** A stream whose archive duration is not a number. *)
Definition stream_odd : Stream :=
  {| stream_pk := 3;
     stream_custom_properties :=
       Some (<["tv_archive" := JStr "1"]> (<["tv_archive_duration" := JStr "abc"]> ∅));
     m3u_account := Some provider |}.

Definition sports : Channel :=
  {| channel_id := 9; channel_uuid := "uuid-9"; channel_name := "Sports";
     channel_user_level := 0 |}.

Definition john : User :=
  {| username := "john"; django_password := "pbkdf2_sha256$x";
     user_level := 1;
     user_custom_properties := Some (<["xc_password" := JStr "secret123"]> ∅);
     channel_profiles := [] |}.

(** A user whose stored credential is the empty string. *)
Definition blank : User :=
  {| username := "blank"; django_password := "pbkdf2_sha256$y";
     user_level := 1;
     user_custom_properties := Some (<["xc_password" := JStr ""]> ∅);
     channel_profiles := [] |}.

Definition store : database :=
  {| users := <["john" := john]> (<["blank" := blank]> ∅);
     streams := [stream_22371; stream_900; stream_odd];
     channels := [news; premium; sports];
     channel_streams :=
       [ {| cs_channel := 7; cs_stream := 1; cs_order := 0 |};
         {| cs_channel := 8; cs_stream := 2; cs_order := 0 |};
         {| cs_channel := 9; cs_stream := 3; cs_order := 0 |} ];
     memberships := [] |}.

Definition zones (key : string) : option (Z -> Z) :=
  if String.eqb key "UTC" then Some (fun _ => 0)
  else if String.eqb key "Europe/Brussels" then Some (fun _ => 3600)
  else None.

(** The plugin is enabled and the provider does not answer in time. *)
Definition world0 : world :=
  {| db := store; plugin_row := inr true;
     upstream := fun _ => GetTimeout; tzdata := zones |}.

Definition plain_request : request := {| META := ∅ |}.

(** The host before the plugin is loaded: every attribute holds the
    host's own function and hooks.py holds no saved reference. *)
Definition host0 : state :=
  {| xc_get_live_streams := HostFn "xc_get_live_streams";
     stream_xc := HostFn "stream_xc";
     urlpatterns :=
       [ {| entry_id := 1; entry_name := "xc_stream_endpoint";
            entry_callback := Some (HostFn "stream_xc") |};
         {| entry_id := 2; entry_name := "api"; entry_callback := None |};
         {| entry_id := 3; entry_name := "handle_404";
            entry_callback := Some (HostFn "handle_404") |} ];
     URLResolver_resolve := HostFn "URLResolver.resolve";
     _original_xc_get_live_streams := None;
     _original_stream_xc := None;
     _original_url_callbacks := ∅;
     _original_resolve := None;
     closures := 0;
     importable := fun _ => true |}.

(** The state after one call of [install_hooks], and after two. *)
Definition installed_once : state := (install_hooks host0).2.

Definition installed_twice : state := (install_hooks installed_once).2.

(** A host on which the proxy views cannot be imported. *)
Definition host_without_proxy : state :=
  {| xc_get_live_streams := xc_get_live_streams host0;
     stream_xc := stream_xc host0;
     urlpatterns := urlpatterns host0;
     URLResolver_resolve := URLResolver_resolve host0;
     _original_xc_get_live_streams := None;
     _original_stream_xc := None;
     _original_url_callbacks := ∅;
     _original_resolve := None;
     closures := 0;
     importable := fun m => negb (String.eqb m "apps.proxy.ts_proxy.views") |}.

(** The plugin row says disabled. *)
Definition world_disabled : world :=
  {| db := store; plugin_row := inr false;
     upstream := fun _ => GetTimeout; tzdata := zones |}.

(** [path.startswith(prefix)], then the rest of the path: the match of
    a route that is a literal prefix. *)
Definition prefix_match (prefix path : string)
  : option (string * list string * list (string * string)) :=
  if startswith prefix path
  then Some (String.substring (String.length prefix)
               (String.length path - String.length prefix) path, [], [])
  else None.

(** The match of the route [<path:unused_path>]: one character or more,
    none of them a newline. *)
Definition path_converter_match (path : string)
  : option (list string * list (string * string)) :=
  if negb (String.eqb path "") && all_chars (fun c => negb (Ascii.eqb c "010")) path
  then Some ([], [("unused_path", path)])
  else None.

Definition exact_match (r path : string)
  : option (list string * list (string * string)) :=
  if String.eqb r path then Some ([], []) else None.

(** A URL configuration of the shape of the host's: an included API
    first, the catch-all pattern last, under the root resolver, whose
    pattern is the leading slash. *)
Definition api_urls : URLResolver :=
  Resolver "api/" (prefix_match "api/") []
    [ URLPattern "channels/" (exact_match "channels/") "channel_list" [] ].

Definition root_urls : URLResolver :=
  Resolver "^/" (prefix_match "/") []
    [ Include api_urls;
      URLPattern "<path:unused_path>" path_converter_match "handle_404" [] ].

(** Catalog entries as the host lists them, by internal channel id. *)
Definition entry_sports : dict :=
  <["stream_id" := JInt 9]> (<["name" := JStr "Sports"]> ∅).

Definition entry_news : dict :=
  <["stream_id" := JInt 7]> (<["name" := JStr "News"]> ∅).

Definition entry_unknown : dict :=
  <["stream_id" := JInt 404]> (<["name" := JStr "Gone"]> ∅).

Definition host_catalog (name : string) : exn + list dict :=
  inr [entry_news].

(** A namespace that binds the two names views.py imports: a support
    check that accepts every property bag, and a configuration. *)
Definition bound_hooks : namespace :=
  <["_has_catchup_support" := FnOfProps (fun _ => (JBool true, JInt 7))]>
    (<["_get_plugin_config" :=
         FnConfig (fun _ =>
           <["timezone" := "Europe/Brussels"]>
             (<["catchup_url_template" :=
                  "{server.url}/timeshift/{XC.username}/{XC.password}/{program.duration}/{program.starttime}/{stream_id}.ts"]> ∅))]>
       hooks_module).

(** The provider answers a ranged request with partial content. *)
Definition partial_reply : upstream_response :=
  {| status_code := 206;
     resp_headers :=
       headers_of [ ("Server", "nginx"); ("content-type", "video/mp2t");
                    ("Content-Range", "bytes 1000-1999/5000") ];
     iter_content := ["abc"; ""; "de"] |}.

Definition world_streaming : world :=
  {| db := store; plugin_row := inr true;
     upstream := fun _ => GetResponse partial_reply; tzdata := zones |}.

Definition ranged_request : request :=
  {| META := <["HTTP_RANGE" := "bytes=1000-"]> ∅ |}.

End Sample.
Import Sample.

(** ** The handler stops at its first import from hooks *)

Lemma hooks_lacks_has_catchup_support :
  import_from hooks_module "_has_catchup_support"
  = inl (ImportError "_has_catchup_support").
Proof. vm_compute. reflexivity. Qed.

Lemma hooks_lacks_get_plugin_config :
  import_from hooks_module "_get_plugin_config"
  = inl (ImportError "_get_plugin_config").
Proof. vm_compute. reflexivity. Qed.

Lemma check_catchup_deployed w req stream timestamp :
  check_catchup hooks_module w req stream timestamp
  = quiet (Raises (ImportError "_has_catchup_support")).
Proof. unfold check_catchup. now rewrite hooks_lacks_has_catchup_support. Qed.

(** The deployed handler, step by step up to the import. *)
Lemma timeshift_proxy_steps w req uname password stream_id timestamp duration :
  timeshift_proxy w req uname password stream_id timestamp duration
  = match _authenticate_user (db w) uname password with
    | None => quiet (Returns (HttpResponseForbidden "Invalid credentials"))
    | Some user =>
        match _find_channel_by_provider_stream_id (db w) (rstrip ".ts" duration) with
        | None => quiet (Raises (Http404 "Channel not found"))
        | Some (channel, _) =>
            if user_level user <? channel_user_level channel
            then quiet (Returns (HttpResponseForbidden "Access denied"))
            else quiet (Raises (ImportError "_has_catchup_support"))
        end
    end.
Proof.
  unfold timeshift_proxy, timeshift_proxy_in.
  destruct (_authenticate_user _ _ _) as [user|]; [|reflexivity].
  destruct (_find_channel_by_provider_stream_id _ _) as [[channel stream]|]; [|reflexivity].
  now rewrite check_catchup_deployed.
Qed.

(** C1. Every request that passes authentication, identifier resolution
    and the access-level check reaches [from .hooks import
    _has_catchup_support]; hooks.py binds neither that name nor
    [_get_plugin_config], so the handler raises [ImportError] there. For
    every input the handler ends in one of four ways, none of which
    builds a URL, sends a request upstream or streams. *)
Theorem timeshift_proxy_raises_import_error :
  forall w req uname password stream_id timestamp duration,
    (forall user channel stream,
        _authenticate_user (db w) uname password = Some user ->
        _find_channel_by_provider_stream_id (db w) (rstrip ".ts" duration)
        = Some (channel, stream) ->
        (user_level user <? channel_user_level channel) = false ->
        timeshift_proxy w req uname password stream_id timestamp duration
        = (Raises (ImportError "_has_catchup_support"), []))
    /\ (let r := timeshift_proxy w req uname password stream_id timestamp duration in
        r = (Returns (HttpResponseForbidden "Invalid credentials"), [])
        \/ r = (Raises (Http404 "Channel not found"), [])
        \/ r = (Returns (HttpResponseForbidden "Access denied"), [])
        \/ r = (Raises (ImportError "_has_catchup_support"), []))
    /\ hooks_module !! "_has_catchup_support" = None
    /\ hooks_module !! "_get_plugin_config" = None.
Proof.
  intros w req uname password stream_id timestamp duration.
  split; [|split; [|split; vm_compute; reflexivity]].
  - intros user channel stream Hauth Hfind Hlevel.
    rewrite timeshift_proxy_steps, Hauth, Hfind, Hlevel. reflexivity.
  - cbv zeta. rewrite timeshift_proxy_steps. unfold quiet.
    destruct (_authenticate_user _ _ _) as [user|]; [|now left].
    destruct (_find_channel_by_provider_stream_id _ _) as [[channel stream]|];
      [|now right; left].
    destruct (user_level user <? channel_user_level channel);
      [now right; right; left | now right; right; right].
Qed.

Lemma timeshift_proxy_raises_import_error_witness :
  timeshift_proxy world0 plain_request "john" "secret123" "155"
    "2025-01-15:14-30" "22371"
  = (Raises (ImportError "_has_catchup_support"), []).
Proof.
  apply (proj1 (timeshift_proxy_raises_import_error world0 plain_request "john"
                  "secret123" "155" "2025-01-15:14-30" "22371")
           john news stream_22371); reflexivity.
Defined.

(** C2, on the code. The stream of provider id 22371 has [tv_archive] 0
    and no duration; the request is authenticated, resolved and
    authorized. The handler raises [ImportError] where the claim has it
    answer [BadRequest]; it sends nothing upstream. *)
Theorem no_catchup_request_raises :
  _authenticate_user (db world0) "john" "secret123" = Some john
  /\ _find_channel_by_provider_stream_id (db world0) "22371" = Some (news, stream_22371)
  /\ (user_level john <? channel_user_level news) = false
  /\ or_empty (stream_custom_properties stream_22371) !! "tv_archive" = Some (JInt 0)
  /\ or_empty (stream_custom_properties stream_22371) !! "tv_archive_duration" = None
  /\ timeshift_proxy world0 plain_request "john" "secret123" "155"
       "2025-01-15:14-30" "22371"
     = (Raises (ImportError "_has_catchup_support"), [])
  /\ timeshift_proxy world0 plain_request "john" "secret123" "155"
       "2025-01-15:14-30" "22371"
     <> (Returns (HttpResponseBadRequest
                    "Catchup/timeshift not supported for this channel"), []).
Proof.
  repeat split; try (vm_compute; reflexivity).
  vm_compute. discriminate.
Qed.

(** What step 4 does in a namespace that binds the name to a predicate:
    an unsupported channel is answered [BadRequest] without any request
    upstream. *)
Lemma check_catchup_unsupported ns w req stream timestamp f :
  ns !! "_has_catchup_support" = Some (FnOfProps f) ->
  truthy (f (or_empty (stream_custom_properties stream))).1 = false ->
  check_catchup ns w req stream timestamp
  = (Returns (HttpResponseBadRequest
                "Catchup/timeshift not supported for this channel"), []).
Proof.
  intros Hns Hf. unfold check_catchup, import_from. rewrite Hns.
  destruct (f _) as [has_catchup other]. simpl in Hf. now rewrite Hf.
Qed.

(** ** Authentication *)

Lemma truthy_str_nonempty p : p <> "" -> truthy (JStr p) = true.
Proof.
  intros Hp. simpl. destruct (String.eqb_spec p ""); [contradiction | reflexivity].
Qed.

Lemma eq_str_false v p : eq_str v p = false <-> v <> JStr p.
Proof.
  destruct v; simpl; try (split; [discriminate | reflexivity]).
  destruct (String.eqb_spec s p); split; try congruence.
Qed.

(** When [_authenticate_user] returns [None]. *)
Lemma authenticate_none d uname password :
  _authenticate_user d uname password = None
  <-> (users d !! uname = None
       \/ exists user, users d !! uname = Some user
                       /\ (Spec.no_xc_password user \/ Spec.password_differs user password)).
Proof.
  unfold _authenticate_user, Spec.no_xc_password, Spec.password_differs.
  destruct (users d !! uname) as [user|]; [|split; [now left | reflexivity]].
  destruct (or_empty (user_custom_properties user) !! "xc_password") as [v|] eqn:Hv.
  - destruct (truthy v) eqn:Ht; simpl.
    + destruct (eq_str v password) eqn:He; simpl.
      * split; [discriminate|]. intros [H|(u & Hu & [H|H])]; try discriminate.
        -- injection Hu as <-. rewrite Hv in H. simpl in H. congruence.
        -- injection Hu as <-. rewrite Hv in H.
           destruct v; simpl in He; try discriminate.
           apply String.eqb_eq in He. congruence.
      * split; [|reflexivity]. intros _. right. exists user. split; [reflexivity|].
        right. rewrite Hv. apply eq_str_false in He. congruence.
    + split; [|reflexivity]. intros _. right. exists user. split; [reflexivity|].
      left. rewrite Hv. exact Ht.
  - split; [|reflexivity]. intros _. right. exists user. split; [reflexivity|].
    left. rewrite Hv. reflexivity.
Qed.

Lemma auth_failure_iff w req uname password stream_id timestamp duration :
  timeshift_proxy w req uname password stream_id timestamp duration = Spec.auth_failure
  <-> _authenticate_user (db w) uname password = None.
Proof.
  rewrite timeshift_proxy_steps. unfold Spec.auth_failure, quiet.
  destruct (_authenticate_user _ _ _) as [user|]; [|tauto].
  split; [|discriminate].
  destruct (_find_channel_by_provider_stream_id _ _) as [[channel stream]|];
    [|discriminate].
  destruct (user_level user <? channel_user_level channel); discriminate.
Qed.

Lemma authenticate_ignores_django_password f d uname password :
  _authenticate_user (Spec.with_django_passwords f d) uname password = None
  <-> _authenticate_user d uname password = None.
Proof.
  unfold _authenticate_user, Spec.with_django_passwords. simpl.
  rewrite lookup_fmap.
  destruct (users d !! uname) as [user|]; simpl; [|tauto].
  destruct (or_empty (user_custom_properties user) !! "xc_password") as [v|];
    [|tauto].
  destruct (truthy v); simpl; [|tauto].
  destruct (eq_str v password); simpl; [|tauto].
  split; discriminate.
Qed.

(** C7. Authentication of [timeshift_proxy] looks the user up by exact
    username and fails, with the 403 response "Invalid credentials" and
    no request upstream, if and only if the user does not exist, the
    user has no xc_password (none in the property bag, or an empty
    one), or the supplied password differs from the xc_password. For a
    non-empty supplied password, and the password the resolver captures
    is never empty, "no xc_password" is the absence of the key. The
    primary password of the platform has no part in the outcome. *)
Theorem timeshift_proxy_authentication :
  forall w req uname password stream_id timestamp duration,
    let failed :=
      timeshift_proxy w req uname password stream_id timestamp duration
      = (Returns (HttpResponseForbidden "Invalid credentials"), []) in
    (failed <->
       (users (db w) !! uname = None
        \/ exists user, users (db w) !! uname = Some user
             /\ (Spec.no_xc_password user \/ Spec.password_differs user password)))
    /\ (password <> "" ->
        (failed <->
           (users (db w) !! uname = None
            \/ exists user, users (db w) !! uname = Some user
                 /\ (or_empty (user_custom_properties user) !! "xc_password" = None
                     \/ Spec.password_differs user password))))
    /\ (forall f,
           timeshift_proxy (Spec.in_store (Spec.with_django_passwords f (db w)) w)
             req uname password stream_id timestamp duration
           = (Returns (HttpResponseForbidden "Invalid credentials"), [])
           <-> failed).
Proof.
  intros w req uname password stream_id timestamp duration failed.
  assert (Hmain : failed <->
       (users (db w) !! uname = None
        \/ exists user, users (db w) !! uname = Some user
             /\ (Spec.no_xc_password user \/ Spec.password_differs user password))).
  { unfold failed. fold Spec.auth_failure.
    rewrite auth_failure_iff. apply authenticate_none. }
  split; [exact Hmain|]. split.
  - intros Hp. rewrite Hmain. split.
    + intros [H|(user & Hu & [H|H])]; [now left| |].
      * right. exists user. split; [exact Hu|].
        unfold Spec.no_xc_password, Spec.password_differs in *.
        destruct (or_empty (user_custom_properties user) !! "xc_password") as [v|];
          [|now left].
        right. intros Hv. injection Hv as ->.
        change (truthy (JStr password) = false) in H.
        rewrite (truthy_str_nonempty _ Hp) in H. discriminate.
      * right. exists user. tauto.
    + intros [H|(user & Hu & [H|H])]; [now left| |].
      * right. exists user. split; [exact Hu|]. left.
        unfold Spec.no_xc_password. now rewrite H.
      * right. exists user. tauto.
  - intros f. unfold failed. fold Spec.auth_failure.
    rewrite !auth_failure_iff. apply authenticate_ignores_django_password.
Qed.

Lemma timeshift_proxy_authentication_witness :
  timeshift_proxy world0 plain_request "john" "wrong" "155" "2025-01-15:14-30" "22371"
  = (Returns (HttpResponseForbidden "Invalid credentials"), []).
Proof.
  assert (Hp : "wrong" <> "") by discriminate.
  apply (proj2 (proj1 (proj2 (timeshift_proxy_authentication world0 plain_request
                                "john" "wrong" "155" "2025-01-15:14-30" "22371")) Hp)).
  right. exists john. split; [reflexivity|]. right.
  unfold Spec.password_differs. vm_compute. discriminate.
Defined.

(** A direct call with the empty password, which no routed request
    carries: the stored credential is the empty string, the supplied
    password equals it, and the handler answers "Invalid credentials". *)
Lemma empty_credential_is_refused :
  ~ (timeshift_proxy world0 plain_request "blank" "" "155" "2025-01-15:14-30" "22371"
     = (Returns (HttpResponseForbidden "Invalid credentials"), [])
     <-> (users (db world0) !! "blank" = None
          \/ exists user, users (db world0) !! "blank" = Some user
               /\ (or_empty (user_custom_properties user) !! "xc_password" = None
                   \/ or_empty (user_custom_properties user) !! "xc_password"
                      <> Some (JStr "")))).
Proof.
  intros [Hfail _].
  assert (Hrun : timeshift_proxy world0 plain_request "blank" "" "155"
                   "2025-01-15:14-30" "22371"
                 = (Returns (HttpResponseForbidden "Invalid credentials"), []))
    by (vm_compute; reflexivity).
  destruct (Hfail Hrun) as [H|(user & Hu & H)].
  - vm_compute in H. discriminate.
  - assert (Hb : users (db world0) !! "blank" = Some blank) by (vm_compute; reflexivity).
    rewrite Hb in Hu. injection Hu as <-.
    destruct H as [H|H].
    + vm_compute in H. discriminate.
    + apply H. vm_compute. reflexivity.
Qed.

(** ** Authorization *)

(** C8 as stated fails on the live path: john (level 1) asks for the
    channel of provider id 900, which requires level 5; the patched
    [stream_xc] denies him with a 404 "Not found", not with a Forbidden
    response. *)
Lemma live_denial_is_404 :
  _is_plugin_enabled world0 = true
  /\ find_channel (db world0) john (stem "900.ts") = Some premium
  /\ user_level john < channel_user_level premium
  /\ (forall original,
         patched_stream_xc world0 original "john" "secret123" "900.ts"
         = (inr (Response "Not found" 404), []))
  /\ status_of (Response "Not found" 404) <> Some 403.
Proof.
  repeat split; try (vm_compute; reflexivity).
  vm_compute. discriminate.
Qed.

(** C8, amended. For every user level and every channel, access is
    denied exactly when the channel's required level is strictly greater
    than the user's: by the Forbidden response "Access denied" in the
    timeshift handler, and by the 404 response "Not found" in the
    patched live playback; otherwise the timeshift handler goes on to
    its feature check and the live playback hands the channel to
    [stream_ts]. *)
Theorem access_level_check :
  forall w req uname password stream_id timestamp duration ns user channel stream,
    _authenticate_user (db w) uname password = Some user ->
    _find_channel_by_provider_stream_id (db w) (rstrip ".ts" duration)
    = Some (channel, stream) ->
    (user_level user < channel_user_level channel ->
       timeshift_proxy_in ns w req uname password stream_id timestamp duration
       = (Returns (HttpResponseForbidden "Access denied"), [])
       /\ status_of (HttpResponseForbidden "Access denied") = Some 403)
    /\ (channel_user_level channel <= user_level user ->
          timeshift_proxy_in ns w req uname password stream_id timestamp duration
          = check_catchup ns w req stream timestamp)
    /\ (forall original channel_id live_channel,
           _is_plugin_enabled w = true ->
           find_channel (db w) user (stem channel_id) = Some live_channel ->
           (user_level user < channel_user_level live_channel ->
              patched_stream_xc w original uname password channel_id
              = (inr (Response "Not found" 404), []))
           /\ (channel_user_level live_channel <= user_level user ->
                 patched_stream_xc w original uname password channel_id
                 = (inr (HostResponse "stream_ts" [channel_uuid live_channel]),
                    [HostFn "stream_ts"]))).
Proof.
  intros w req uname password stream_id timestamp duration ns user channel stream
         Hauth Hfind.
  split; [|split].
  - intros Hlt. split; [|reflexivity].
    unfold timeshift_proxy_in. rewrite Hauth, Hfind.
    apply Z.ltb_lt in Hlt. now rewrite Hlt.
  - intros Hle. unfold timeshift_proxy_in. rewrite Hauth, Hfind.
    apply Z.ltb_ge in Hle. now rewrite Hle.
  - intros original channel_id live_channel Hen Hlive.
    assert (Hu : exists v, users (db w) !! uname = Some user
                  /\ or_empty (user_custom_properties user) !! "xc_password" = Some v
                  /\ eq_str v password = true).
    { unfold _authenticate_user in Hauth.
      destruct (users (db w) !! uname) as [u|]; [|discriminate].
      destruct (or_empty (user_custom_properties u) !! "xc_password") as [v|] eqn:Hv;
        [|discriminate].
      destruct (truthy v); simpl in Hauth; [|discriminate].
      destruct (eq_str v password) eqn:He; simpl in Hauth; [|discriminate].
      injection Hauth as <-. exists v. auto. }
    destruct Hu as (v & Hu & Hv & He).
    unfold patched_stream_xc. rewrite Hen, Hu, Hv, He, Hlive. simpl.
    split; intros Hcmp.
    + apply Z.ltb_lt in Hcmp. now rewrite Hcmp.
    + apply Z.ltb_ge in Hcmp. now rewrite Hcmp.
Qed.

Lemma access_level_check_witness :
  timeshift_proxy_in hooks_module world0 plain_request "john" "secret123" "155"
    "2025-01-15:14-30" "900"
  = (Returns (HttpResponseForbidden "Access denied"), [])
  /\ patched_stream_xc world0 (fun _ _ _ => (inl TypeError, [])) "john" "secret123" "7.ts"
     = (inr (HostResponse "stream_ts" ["uuid-7"]), [HostFn "stream_ts"]).
Proof.
  assert (Ha : _authenticate_user (db world0) "john" "secret123" = Some john)
    by reflexivity.
  assert (Hf : _find_channel_by_provider_stream_id (db world0) (rstrip ".ts" "900")
               = Some (premium, stream_900)) by reflexivity.
  pose proof (access_level_check world0 plain_request "john" "secret123" "155"
                "2025-01-15:14-30" "900" hooks_module john premium stream_900 Ha Hf)
    as (Hdeny & _ & Hlive).
  split.
  - apply Hdeny. reflexivity.
  - apply (Hlive (fun _ _ _ => (inl TypeError, [])) "7.ts" news);
      [reflexivity | reflexivity | discriminate].
Defined.

(** ** The proxy step *)

(** C9. [_proxy_stream] attempts exactly one outbound GET per call. An
    upstream status other than 200 and 206 gives a BadRequest response;
    a timeout or a connection error of the outbound call is caught and
    gives a BadRequest response; in none of these cases is a second
    request sent or an exception raised to the caller. *)
Theorem proxy_stream_single_attempt :
  forall w req url user_agent,
    let r := _proxy_stream w req url user_agent in
    (exists get, r.2 = [get] /\ out_url get = url /\ out_timeout get = 10)
    /\ (forall get, r.2 = [get] ->
          (forall response,
              upstream w get = GetResponse response ->
              status_code response <> 200 -> status_code response <> 206 ->
              r.1 = Returns (HttpResponseBadRequest
                               ("Provider error: " +:+ pretty (status_code response))))
          /\ (upstream w get = GetTimeout ->
                r.1 = Returns (HttpResponseBadRequest "Provider timeout"))
          /\ (upstream w get = GetConnectionError ->
                r.1 = Returns (HttpResponseBadRequest "Provider connection error"))).
Proof.
  intros w req url user_agent r.
  unfold r, _proxy_stream. cbn [fst snd].
  set (get := {| out_url := url; out_headers := _; out_stream := true;
                 out_timeout := 10 |}).
  split; [exists get; auto|].
  intros g Hg. injection Hg as <-. split; [|split].
  - intros response Hup H200 H206. rewrite Hup.
    apply Z.eqb_neq in H200, H206. now rewrite H200, H206.
  - intros Hup. now rewrite Hup.
  - intros Hup. now rewrite Hup.
Qed.

Lemma proxy_stream_single_attempt_witness :
  (_proxy_stream world0 plain_request "http://provider.example:8080/x" "VLC/3.0").1
  = Returns (HttpResponseBadRequest "Provider timeout").
Proof.
  destruct (proxy_stream_single_attempt world0 plain_request
              "http://provider.example:8080/x" "VLC/3.0") as [_ H].
  apply (H {| out_url := "http://provider.example:8080/x";
              out_headers := {[ "User-Agent" := "VLC/3.0" ]};
              out_stream := true; out_timeout := 10 |}); reflexivity.
Defined.

(** ** Timestamp conversion *)

(** C10. [_convert_timestamp_to_local] is a function of the timestamp
    and the zone alone (and of the zone database of the system): equal
    inputs give equal strings; a timestamp that does not parse as
    YYYY-MM-DD:HH-MM, or a zone for which the conversion raises, gives
    the timestamp back unchanged. *)
Theorem convert_timestamp_deterministic_and_total :
  forall tz timestamp timezone_str,
    (forall timestamp' timezone_str',
        timestamp = timestamp' -> timezone_str = timezone_str' ->
        _convert_timestamp_to_local tz timestamp timezone_str
        = _convert_timestamp_to_local tz timestamp' timezone_str')
    /\ (strptime timestamp = None ->
          _convert_timestamp_to_local tz timestamp timezone_str = timestamp)
    /\ (forall utc_time e,
          strptime timestamp = Some utc_time ->
          astimezone tz timezone_str utc_time = inl e ->
          _convert_timestamp_to_local tz timestamp timezone_str = timestamp).
Proof.
  intros tz timestamp timezone_str. split; [|split].
  - intros timestamp' timezone_str' -> ->. reflexivity.
  - intros Hparse. unfold _convert_timestamp_to_local. now rewrite Hparse.
  - intros utc_time e Hparse Hconv. unfold _convert_timestamp_to_local.
    now rewrite Hparse, Hconv.
Qed.

Lemma convert_timestamp_deterministic_and_total_witness :
  _convert_timestamp_to_local zones "2025-13-40:99-99" "Europe/Brussels"
  = "2025-13-40:99-99"
  /\ _convert_timestamp_to_local zones "2025-01-15:14-30" "Mars/Phobos"
     = "2025-01-15:14-30".
Proof.
  split.
  - apply (proj1 (proj2 (convert_timestamp_deterministic_and_total zones
                           "2025-13-40:99-99" "Europe/Brussels"))).
    reflexivity.
  - apply (proj2 (proj2 (convert_timestamp_deterministic_and_total zones
                           "2025-01-15:14-30" "Mars/Phobos"))
             {| year := 2025; month := 1; day := 15; hour := 14; minute := 30 |}
             (KeyError "Mars/Phobos")); reflexivity.
Defined.

(** A timestamp that parses, in a zone one hour ahead of UTC. *)
Example convert_brussels :
  _convert_timestamp_to_local zones "2025-01-15:23-30" "Europe/Brussels"
  = "2025-01-16:00-30".
Proof. vm_compute. reflexivity. Qed.

(** ** URL interception *)

(** One call of the wrapper: if the path does not match the anchored
    timeshift pattern, or the enabled flag is false, or reading the flag
    raises, [patched_resolve] returns what its call of
    [_original_resolve] returns for that path, and enters no function
    but the ones that call enters. *)
Theorem patched_resolve_passes_through :
  forall w original path,
    (TIMESHIFT_PATTERN path = None
     \/ plugin_row w = inr false
     \/ exists e, plugin_row w = inl e) ->
    patched_resolve w original path = original path.
Proof.
  intros w original path H. unfold patched_resolve, _is_plugin_enabled.
  destruct H as [H|[H|[e H]]]; rewrite H.
  - now destruct (_ && _).
  - reflexivity.
  - reflexivity.
Qed.

Lemma patched_resolve_passes_through_witness :
  patched_resolve world0 (fun p => (inl (Http404 p), [HostFn "resolve"]))
    "/timeshift/john/secret123/155/2025-01-15:14-30/22371.mp4"
  = (inl (Http404 "/timeshift/john/secret123/155/2025-01-15:14-30/22371.mp4"),
     [HostFn "resolve"]).
Proof.
  apply (patched_resolve_passes_through world0
           (fun p => (inl (Http404 p), [HostFn "resolve"]))).
  left. reflexivity.
Defined.

(** C5, on the code. The path below does not match the timeshift
    pattern and the plugin is enabled. The unpatched host resolves it to
    its catch-all view. With the hooks installed the call on the root
    resolver passes through to Django's [resolve], whose loop calls
    [resolve] on the included resolver through the patched class
    attribute, with the path less its leading slash; that path matches,
    the wrapper answers with its own match, and the merge in the outer
    resolver raises [TypeError]. The patched [resolve] does not return
    what the original returns for this path. While the plugin is
    disabled it does. *)
Theorem nested_resolve_is_intercepted :
  let path := "//timeshift/john/secret123/155/2025-01-15:14-30/22371.ts" in
  let not_found :=
    {| func := "handle_404"; args := [];
       kwargs := [("unused_path",
                   "/timeshift/john/secret123/155/2025-01-15:14-30/22371.ts")];
       route := "<path:unused_path>"; extra_kwargs := Some [] |} in
  TIMESHIFT_PATTERN path = None
  /\ _is_plugin_enabled world0 = true
  /\ (forall depth,
         call_resolve world0 host0 (S (S depth)) (URLResolver_resolve host0)
           root_urls path
         = (inr not_found, [HostFn "URLResolver.resolve"; HostFn "URLResolver.resolve"]))
  /\ (forall depth,
         call_resolve world0 installed_once (S (S (S depth)))
           (URLResolver_resolve installed_once) root_urls path
         = (inl TypeError,
            [PatchedResolve 2; HostFn "URLResolver.resolve"; PatchedResolve 2]))
  /\ (forall depth,
         (call_resolve world_disabled installed_once (S (S (S (S depth))))
            (URLResolver_resolve installed_once) root_urls path).1
         = inr not_found).
Proof.
  cbv zeta.
  split; [vm_compute; reflexivity|].
  split; [reflexivity|].
  split; [intros depth; vm_compute; reflexivity|].
  split; [intros depth; vm_compute; reflexivity|].
  intros depth. vm_compute. reflexivity.
Qed.

(** A matching path is intercepted when the plugin is enabled. *)
Example patched_resolve_intercepts :
  patched_resolve world0 (fun p => (inl (Http404 p), [HostFn "resolve"]))
    "/timeshift/john/secret123/155/2025-01-15:14-30/22371.ts"
  = (inr {| func := "timeshift_proxy"; args := [];
            kwargs := [("username", "john"); ("password", "secret123");
                       ("stream_id", "155"); ("timestamp", "2025-01-15:14-30");
                       ("duration", "22371")];
            route := "/timeshift/john/secret123/155/2025-01-15:14-30/22371.ts";
            extra_kwargs := None |},
     []).
Proof. vm_compute. reflexivity. Qed.

(** ** Decoration of the catalog listing *)

(** C4 as stated fails: the first stream of channel 9 has a well-formed
    [tv_archive] and a malformed [tv_archive_duration]; the decoration
    of its entry fails after [tv_archive] was assigned, and the entry
    keeps the new key. *)
Lemma failed_entry_keeps_tv_archive :
  enhance store entry_sports
  = (<["tv_archive" := JInt 1]> entry_sports, Failed ValueError)
  /\ entry_sports !! "tv_archive" = None
  /\ (enhance store entry_sports).1 <> entry_sports.
Proof.
  assert (H : enhance store entry_sports
              = (<["tv_archive" := JInt 1]> entry_sports, Failed ValueError))
    by (vm_compute; reflexivity).
  split; [exact H|]. split; [reflexivity|].
  rewrite H. cbn [fst]. intros Heq.
  assert (Hl : (<["tv_archive" := JInt 1]> entry_sports : dict) !! "tv_archive"
               = entry_sports !! "tv_archive") by (now rewrite Heq).
  rewrite lookup_insert_eq in Hl. discriminate.
Qed.

Lemma enhance_all_app d before after :
  enhance_all d (before ++ after)%list
  = (enhance_all d before ++ enhance_all d after)%list.
Proof.
  induction before as [|sd before IH]; [reflexivity|].
  simpl. now rewrite IH.
Qed.

(** C4, amended. In the patched catalog listing, an entry whose channel
    or first stream is missing, whose [stream_id] makes the channel
    lookup raise, or whose [tv_archive] property is malformed is left
    exactly as the original function produced it. An entry whose
    [tv_archive_duration] is malformed keeps the [tv_archive] already
    assigned, and one whose provider [stream_id] is malformed keeps
    [tv_archive] and [tv_archive_duration]; no other key is added,
    removed or changed. In every case the failure stays in the entry and
    decoration runs for all remaining entries. *)
Theorem enhance_failure_is_local :
  forall d stream_data,
    (Spec.entry_props d stream_data = None ->
       (enhance d stream_data).1 = stream_data
       /\ (enhance d stream_data).2 <> Enhanced)
    /\ (forall props,
           Spec.entry_props d stream_data = Some props ->
           (forall e, Spec.int_prop props "tv_archive" = inl e ->
                      enhance d stream_data = (stream_data, Failed e))
           /\ (forall a e,
                  Spec.int_prop props "tv_archive" = inr a ->
                  Spec.int_prop props "tv_archive_duration" = inl e ->
                  enhance d stream_data
                  = (<["tv_archive" := JInt a]> stream_data, Failed e))
           /\ (forall a b v e,
                  Spec.int_prop props "tv_archive" = inr a ->
                  Spec.int_prop props "tv_archive_duration" = inr b ->
                  props !! "stream_id" = Some v -> truthy v = true ->
                  int_of v = inl e ->
                  enhance d stream_data
                  = (<["tv_archive_duration" := JInt b]>
                       (<["tv_archive" := JInt a]> stream_data), Failed e)))
    /\ (forall w before after t,
           _is_plugin_enabled w = true -> db w = d ->
           patched_xc_get_live_streams w
             (inr (before ++ stream_data :: after)%list, t)
           = (inr (enhance_all d before
                   ++ (enhance d stream_data).1 :: enhance_all d after)%list, t)).
Proof.
  intros d stream_data. split; [|split].
  - unfold Spec.entry_props, enhance. intros H.
    destruct (channel_for d (stream_data !! "stream_id")) as [e|[channel|]];
      [split; [reflexivity | discriminate] | | split; [reflexivity | discriminate]].
    destruct (first_ordered_stream d channel) as [first_stream|];
      [discriminate | split; [reflexivity | discriminate]].
  - unfold Spec.entry_props, Spec.int_prop, enhance. intros props H.
    destruct (channel_for d (stream_data !! "stream_id")) as [e|[channel|]];
      try discriminate.
    destruct (first_ordered_stream d channel) as [first_stream|]; [|discriminate].
    simpl in H. injection H as <-.
    split; [|split].
    + intros e He. now rewrite He.
    + intros a e Ha He. now rewrite Ha, He.
    + intros a b v e Ha Hb Hv Ht He. now rewrite Ha, Hb, Hv, Ht, He.
  - intros w before after t Hen <-. unfold patched_xc_get_live_streams.
    rewrite Hen. simpl. now rewrite enhance_all_app.
Qed.

Lemma enhance_failure_is_local_witness :
  (enhance store entry_unknown).1 = entry_unknown
  /\ enhance store entry_sports
     = (<["tv_archive" := JInt 1]> entry_sports, Failed ValueError)
  /\ patched_xc_get_live_streams world0
       (inr [entry_unknown; entry_sports; entry_news], [HostFn "xc_get_live_streams"])
     = (inr [entry_unknown; (enhance store entry_sports).1;
             (enhance store entry_news).1], [HostFn "xc_get_live_streams"]).
Proof.
  split; [|split].
  - apply (proj1 (enhance_failure_is_local store entry_unknown)). reflexivity.
  - apply (proj1 (proj2 (proj1 (proj2 (enhance_failure_is_local store entry_sports))
                           (<["tv_archive" := JStr "1"]>
                              (<["tv_archive_duration" := JStr "abc"]> ∅))
                           eq_refl)) 1 ValueError); reflexivity.
  - apply (proj2 (proj2 (enhance_failure_is_local store entry_sports))
             world0 [entry_unknown] [entry_news]); reflexivity.
Defined.

(** ** Identifier resolution *)

(** C6 as stated fails: john is below the threshold and belongs to no
    channel profile; no stream has provider id 9; the code returns
    channel 9 on its level alone, where the claim filters by profile
    membership. *)
Lemma no_profile_user_is_filtered_by_level_only :
  user_level john < 10
  /\ channel_profiles john = []
  /\ Spec.provider_match store "9" = None
  /\ find_channel store john "9" = Some sports
  /\ Spec.resolve Spec.visible_as_stated store john "9" = None
  /\ find_channel store john "9" <> Spec.resolve Spec.visible_as_stated store john "9".
Proof.
  repeat split; try (vm_compute; reflexivity).
  vm_compute. discriminate.
Qed.

Lemma find_by_provider_is_provider_match d input :
  _find_channel_by_provider_stream_id d input = Spec.provider_match d input.
Proof.
  unfold _find_channel_by_provider_stream_id, Spec.provider_match, first,
    xc_streams_with_provider_id, stream_channels.
  destruct (head (List.filter _ (streams d))) as [s|]; [|reflexivity].
  simpl. now destruct (head (List.filter _ (channels d))).
Qed.

Lemma by_provider_is_provider_match d input :
  by_provider_stream_id d input = fst <$> Spec.provider_match d input.
Proof.
  unfold by_provider_stream_id, Spec.provider_match, first,
    xc_streams_with_provider_id, stream_channels.
  destruct (head (List.filter _ (streams d))) as [s|]; [|reflexivity].
  simpl. now destruct (head (List.filter _ (channels d))).
Qed.

Lemma by_internal_id_amended d user input :
  by_internal_id d user input
  = match int_of_str input with
    | Some i =>
        head (List.filter
                (fun c => (channel_id c =? i)
                          && ((10 <=? user_level user) || Spec.visible_amended d user c))
                (channels d))
    | None => None
    end.
Proof.
  unfold by_internal_id, first, channels_by_id, channels_by_id_level,
    channels_by_id_level_profiles, Spec.visible_amended.
  destruct (int_of_str input) as [i|]; [|reflexivity].
  destruct (Z.ltb_spec (user_level user) 10) as [Hlt|Hge].
  - assert (H10 : (10 <=? user_level user) = false) by (apply Z.leb_gt; lia).
    rewrite H10.
    destruct (channel_profiles user) as [|p ps] eqn:Hp; simpl;
      (f_equal; apply List.filter_ext; intros c;
       now rewrite ?andb_true_r, ?andb_assoc).
  - assert (H10 : (10 <=? user_level user) = true) by (apply Z.leb_le; lia).
    rewrite H10. f_equal. apply List.filter_ext. intros c. simpl.
    now rewrite andb_true_r.
Qed.

(** C6, amended. Identifier resolution tries its branches in strict
    order, the first match winning: (1) the first XC-account stream
    whose property-bag [stream_id] equals the input string exactly
    gives its first associated channel (with the stream, in the
    timeshift handler, which has this branch only); (2) otherwise, if
    the input parses as a base-10 integer, the channel with that
    internal id is returned: unfiltered for a user at or above the
    threshold 10, filtered by [user_level] alone for a user below it who
    has no channel profile, and filtered by [user_level], profile
    membership and its enabled flag for a user below it who has
    profiles; (3) an input that matches no provider id and parses as no
    integer resolves to nothing. *)
Theorem resolution_order :
  forall d user input,
    _find_channel_by_provider_stream_id d input = Spec.provider_match d input
    /\ find_channel d user input = Spec.resolve Spec.visible_amended d user input
    /\ (forall channel stream,
           Spec.provider_match d input = Some (channel, stream) ->
           find_channel d user input = Some channel)
    /\ (Spec.provider_match d input = None -> int_of_str input = None ->
        find_channel d user input = None).
Proof.
  intros d user input.
  assert (Hfind : find_channel d user input
                  = Spec.resolve Spec.visible_amended d user input).
  { unfold find_channel, Spec.resolve.
    rewrite by_provider_is_provider_match, by_internal_id_amended.
    now destruct (Spec.provider_match d input) as [[c s]|]. }
  split; [apply find_by_provider_is_provider_match|].
  split; [exact Hfind|]. split.
  - intros channel stream H. rewrite Hfind. unfold Spec.resolve. now rewrite H.
  - intros H Hint. rewrite Hfind. unfold Spec.resolve. now rewrite H, Hint.
Qed.

Lemma resolution_order_witness :
  find_channel store john "22371" = Some news
  /\ find_channel store john "x9" = None.
Proof.
  destruct (resolution_order store john "22371") as (_ & _ & H1 & _).
  destruct (resolution_order store john "x9") as (_ & _ & _ & H2).
  split.
  - apply (H1 news stream_22371). reflexivity.
  - apply H2; reflexivity.
Defined.

(** ** Installing twice, and removing what was never installed *)

(** A wrapper whose saved "original" is itself a wrapper of the catalog
    listing never reaches the host: each wrapper reads the same global. *)
Lemma live_streams_wrapper_loops w s host k :
  _original_xc_get_live_streams s = Some (PatchedLiveStreams k) ->
  forall depth k',
    (call_xc_get_live_streams w s host depth (PatchedLiveStreams k')).1
    = inl RecursionError.
Proof.
  intros Hs depth. induction depth as [|depth IH]; intros k'; [reflexivity|].
  simpl. rewrite Hs. specialize (IH k).
  destruct (call_xc_get_live_streams w s host depth (PatchedLiveStreams k))
    as [[e|streams] t]; simpl in IH; [|discriminate].
  injection IH as ->. reflexivity.
Qed.

(** The same for live playback while the plugin is disabled. *)
Lemma stream_xc_wrapper_loops w s k :
  _is_plugin_enabled w = false ->
  _original_stream_xc s = Some (PatchedStreamXc k) ->
  forall depth k' uname password channel_id,
    (call_stream_xc w s depth (PatchedStreamXc k') uname password channel_id).1
    = inl RecursionError.
Proof.
  intros Hw Hs depth.
  induction depth as [|depth IH]; intros k' uname password channel_id;
    [reflexivity|].
  simpl. unfold patched_stream_xc. rewrite Hw, Hs. simpl. apply IH.
Qed.

(** [_patch_url_resolver] has a guard: once a reference is saved, a
    further call changes nothing. *)
Lemma patch_url_resolver_idempotent s original :
  importable s "django.urls.resolvers" = true ->
  _original_resolve s = Some original ->
  _patch_url_resolver s = (inr tt, s).
Proof.
  intros Hi Hs. unfold _patch_url_resolver, bind, import, get, ret.
  now rewrite Hi, Hs.
Qed.

(** [uninstall_hooks] when nothing was installed changes nothing. *)
Lemma uninstall_without_install s :
  _original_xc_get_live_streams s = None ->
  _original_stream_xc s = None ->
  _original_resolve s = None ->
  uninstall_hooks s = (inr tt, s).
Proof.
  intros H1 H2 H3.
  unfold uninstall_hooks, _restore_xc_get_live_streams, _restore_stream_xc,
    _restore_url_resolver, bind, get, ret.
  now rewrite H1, H2, H3.
Qed.

(** C3, on the code. After one [install_hooks] every patched entry
    point reaches the host's function once. A second [install_hooks]
    succeeds and leaves [URLResolver.resolve] alone, but wraps
    [xc_get_live_streams] and [stream_xc] again: the saved references
    now hold the first wrappers, not the functions of the host, and a
    call of the catalog listing (or of live playback while the plugin is
    disabled) exhausts the stack whatever its size and never reaches the
    host. *)
Theorem second_install_wraps_again :
  (install_hooks host0).1 = true
  /\ (install_hooks installed_once).1 = true
  /\ call_xc_get_live_streams world0 installed_once host_catalog 2
       (xc_get_live_streams installed_once)
     = (inr (enhance_all store [entry_news]),
        [PatchedLiveStreams 0; HostFn "xc_get_live_streams"])
  /\ _original_xc_get_live_streams installed_once = Some (HostFn "xc_get_live_streams")
  /\ _original_xc_get_live_streams installed_twice = Some (PatchedLiveStreams 0)
  /\ _original_stream_xc installed_twice = Some (PatchedStreamXc 1)
  /\ _original_url_callbacks installed_twice !! 1%N = Some (PatchedStreamXc 1)
  /\ _original_resolve installed_twice = Some (HostFn "URLResolver.resolve")
  /\ URLResolver_resolve installed_twice = URLResolver_resolve installed_once
  /\ (forall w host depth,
         (call_xc_get_live_streams w installed_twice host depth
            (xc_get_live_streams installed_twice)).1 = inl RecursionError)
  /\ (forall depth uname password channel_id,
         (call_stream_xc world_disabled installed_twice depth
            (stream_xc installed_twice) uname password channel_id).1
         = inl RecursionError).
Proof.
  do 9 (split; [vm_compute; reflexivity|]).
  split.
  - intros w host depth.
    assert (Ha : xc_get_live_streams installed_twice = PatchedLiveStreams 3)
      by (vm_compute; reflexivity).
    rewrite Ha. apply live_streams_wrapper_loops with (k := 0%nat).
    vm_compute. reflexivity.
  - intros depth uname password channel_id.
    assert (Ha : stream_xc installed_twice = PatchedStreamXc 4)
      by (vm_compute; reflexivity).
    rewrite Ha. apply stream_xc_wrapper_loops with (k := 1%nat).
    + reflexivity.
    + vm_compute. reflexivity.
Qed.

(** On the sample host, removing hooks that were never installed leaves
    the state as it was. *)
Example uninstall_host0 : uninstall_hooks host0 = (inr tt, host0).
Proof. now apply uninstall_without_install. Qed.

(** ** Further properties of views.py *)

Lemma head_filter_first {A : Type} (f : A -> bool) (l : list A) (x : A) :
  head (List.filter f l) = Some x ->
  f x = true
  /\ exists before after, l = (before ++ x :: after)%list
                          /\ forall y, In y before -> f y = false.
Proof.
  induction l as [|a l IH]; simpl; [discriminate|].
  destruct (f a) eqn:Hfa; simpl.
  - intros [= ->]. split; [exact Hfa|]. exists [], l. split; [reflexivity|].
    intros y [].
  - intros H. destruct (IH H) as (Hx & before & after & -> & Hb).
    split; [exact Hx|]. exists (a :: before), after. split; [reflexivity|].
    intros y [<-|Hy]; [exact Hfa | now apply Hb].
Qed.

Lemma has_provider_id_inv input s :
  has_provider_id input s = true ->
  exists props, stream_custom_properties s = Some props
                /\ props !! "stream_id" = Some (JStr input).
Proof.
  unfold has_provider_id.
  destruct (stream_custom_properties s) as [props|]; [|discriminate].
  destruct (props !! "stream_id") as [v|] eqn:Hv; [|discriminate].
  destruct v; simpl; try discriminate.
  intros H. apply String.eqb_eq in H. subst. now exists props.
Qed.

Lemma is_xc_inv s :
  is_xc s = true -> exists acc, m3u_account s = Some acc /\ account_type acc = "XC".
Proof.
  unfold is_xc. destruct (m3u_account s) as [acc|]; [|discriminate].
  intros H. apply String.eqb_eq in H. now exists acc.
Qed.

(** What [_find_channel_by_provider_stream_id] returns is the first
    stream of the store, in store order, that sits on an XC account and
    whose property bag holds the identifier as the JSON string
    [stream_id], together with the first channel of the store linked to
    that stream. *)
Theorem find_channel_by_provider_stream_id_sound :
  forall d provider_stream_id channel stream,
    _find_channel_by_provider_stream_id d provider_stream_id = Some (channel, stream) ->
    (exists acc, m3u_account stream = Some acc /\ account_type acc = "XC")
    /\ (exists props, stream_custom_properties stream = Some props
                      /\ props !! "stream_id" = Some (JStr provider_stream_id))
    /\ linked d channel stream = true
    /\ (exists before after,
           streams d = (before ++ stream :: after)%list
           /\ forall s, In s before ->
                        has_provider_id provider_stream_id s && is_xc s = false)
    /\ (exists before after,
           channels d = (before ++ channel :: after)%list
           /\ forall c, In c before -> linked d c stream = false).
Proof.
  intros d sid channel stream.
  unfold _find_channel_by_provider_stream_id, first, xc_streams_with_provider_id,
    stream_channels.
  destruct (head (List.filter _ (streams d))) as [s|] eqn:Hs; [|discriminate].
  destruct (head (List.filter _ (channels d))) as [c|] eqn:Hc; [|discriminate].
  intros [= <- <-].
  apply head_filter_first in Hs as (Hs & Hfirst).
  apply head_filter_first in Hc as (Hc & Hcfirst).
  apply andb_prop in Hs as [Hid Hxc].
  repeat split; auto using is_xc_inv, has_provider_id_inv.
Qed.

Lemma find_channel_by_provider_stream_id_sound_witness :
  linked store news stream_22371 = true.
Proof.
  apply (find_channel_by_provider_stream_id_sound store "22371" news stream_22371).
  reflexivity.
Defined.

Lemma found_stream_is_xc d sid channel stream :
  _find_channel_by_provider_stream_id d sid = Some (channel, stream) ->
  exists acc, m3u_account stream = Some acc /\ String.eqb (account_type acc) "XC" = true.
Proof.
  unfold _find_channel_by_provider_stream_id, first, xc_streams_with_provider_id.
  destruct (head (List.filter _ (streams d))) as [s|] eqn:Hs; [|discriminate].
  destruct (head (stream_channels d s)) as [c|]; [|discriminate].
  intros [= <- <-].
  apply head_filter_first in Hs as (Hs & _).
  apply andb_prop in Hs as [_ Hxc]. unfold is_xc in Hxc.
  destruct (m3u_account s) as [acc|]; [|discriminate]. now exists acc.
Qed.

Lemma proxy_stream_shape w req url user_agent :
  exists o get, _proxy_stream w req url user_agent = (o, [get])
    /\ o <> Returns (HttpResponseBadRequest "Channel not from Xtream Codes provider").
Proof.
  unfold _proxy_stream. eexists _, _. split; [reflexivity|].
  destruct (upstream w _) as [r| | | |e]; try discriminate.
  destruct (negb _); discriminate.
Qed.

(** Whatever the hooks module binds, the provider check of step 5 never
    fires in [timeshift_proxy]: the lookup of step 2 only returns streams
    of an XC account, so the answer "Channel not from Xtream Codes
    provider" is not among the outcomes of the handler. *)
Theorem provider_check_never_fails :
  forall ns w req uname password stream_id timestamp duration,
    (timeshift_proxy_in ns w req uname password stream_id timestamp duration).1
    <> Returns (HttpResponseBadRequest "Channel not from Xtream Codes provider").
Proof.
  intros ns w req uname password stream_id timestamp duration.
  unfold timeshift_proxy_in.
  destruct (_authenticate_user _ _ _) as [user|]; [|discriminate].
  destruct (_find_channel_by_provider_stream_id _ _) as [[channel stream]|] eqn:Hfind;
    [|discriminate].
  destruct (user_level user <? channel_user_level channel); [discriminate|].
  apply found_stream_is_xc in Hfind as (acc & Hacc & Hxc).
  unfold check_catchup.
  destruct (import_from ns "_has_catchup_support") as [e|[|f|g]]; try discriminate.
  destruct (f _) as [has_catchup other].
  destruct (negb (truthy has_catchup)); [discriminate|].
  unfold proxy_from_provider. rewrite Hacc, Hxc. cbn [negb].
  destruct (import_from ns "_get_plugin_config") as [e|[|f'|g]]; try discriminate.
  destruct (g () !! "timezone") as [tz|]; [|discriminate].
  destruct (g () !! "catchup_url_template") as [tpl|]; [|discriminate].
  destruct (proxy_stream_shape w req
              (foldl substitute tpl
                 [("server.url", rstrip "/" (server_url acc));
                  ("XC.username", m3u_username acc);
                  ("XC.password", m3u_password acc);
                  ("stream_id",
                   str_of (or_empty (stream_custom_properties stream) !! "stream_id"));
                  ("program.starttime",
                   _convert_timestamp_to_local (tzdata w) timestamp tz);
                  ("program.duration", "120")])
              (m3u_user_agent acc)) as (o & get & Heq & Hne).
  rewrite Heq. exact Hne.
Qed.

(** Whatever the hooks module binds, [timeshift_proxy] sends at most one
    request upstream, and sends one only after the user is
    authenticated, the channel is found, the user's level reaches the
    channel's, and the imported support check answers true for the
    stream's property bag. *)
Theorem upstream_only_after_all_checks :
  forall ns w req uname password stream_id timestamp duration,
    let r := timeshift_proxy_in ns w req uname password stream_id timestamp duration in
    (length r.2 <= 1)%nat
    /\ (r.2 <> [] ->
        exists user channel stream f,
          _authenticate_user (db w) uname password = Some user
          /\ _find_channel_by_provider_stream_id (db w) (rstrip ".ts" duration)
             = Some (channel, stream)
          /\ channel_user_level channel <= user_level user
          /\ ns !! "_has_catchup_support" = Some (FnOfProps f)
          /\ truthy (f (or_empty (stream_custom_properties stream))).1 = true).
Proof.
  intros ns w req uname password stream_id timestamp duration r. unfold r.
  unfold timeshift_proxy_in.
  destruct (_authenticate_user _ _ _) as [user|]; [|split; [simpl; lia | now intros []]].
  destruct (_find_channel_by_provider_stream_id _ _) as [[channel stream]|];
    [|split; [simpl; lia | now intros []]].
  destruct (Z.ltb_spec (user_level user) (channel_user_level channel)) as [Hlt|Hge];
    [split; [simpl; lia | now intros []]|].
  unfold check_catchup, import_from.
  destruct (ns !! "_has_catchup_support") as [[|f|g]|] eqn:Hns;
    try (split; [simpl; lia | now intros []]).
  destruct (f _) as [has_catchup other] eqn:Hf.
  destruct (truthy has_catchup) eqn:Ht; cbn [negb];
    [|split; [simpl; lia | now intros []]].
  assert (Hlen : (length (proxy_from_provider ns w req stream
                            (or_empty (stream_custom_properties stream)) timestamp).2
                  <= 1)%nat).
  { unfold proxy_from_provider.
    destruct (m3u_account stream) as [acc|]; [|simpl; lia].
    destruct (negb _); [simpl; lia|].
    destruct (import_from ns "_get_plugin_config") as [e|[|f'|g]]; try (simpl; lia).
    destruct (g () !! "timezone"); [|simpl; lia].
    destruct (g () !! "catchup_url_template"); [|simpl; lia].
    unfold _proxy_stream. simpl. lia. }
  split; [exact Hlen|].
  intros _. exists user, channel, stream, f. rewrite Hf. auto.
Qed.

Lemma upstream_only_after_all_checks_witness :
  exists user channel stream f,
    _authenticate_user (db world_streaming) "john" "secret123" = Some user
    /\ _find_channel_by_provider_stream_id (db world_streaming) (rstrip ".ts" "22371")
       = Some (channel, stream)
    /\ channel_user_level channel <= user_level user
    /\ bound_hooks !! "_has_catchup_support" = Some (FnOfProps f)
    /\ truthy (f (or_empty (stream_custom_properties stream))).1 = true.
Proof.
  apply (proj2 (upstream_only_after_all_checks bound_hooks world_streaming
                  ranged_request "john" "secret123" "155" "2025-01-15:14-30" "22371")).
  vm_compute. discriminate.
Defined.

(** ** The outbound request and the streamed reply *)


Lemma copy_three_headers (src : gmap string string) (h : string) :
  foldl (copy_header src) ∅ ["Content-Length"; "Content-Range"; "Accept-Ranges"] !! h
  = if bool_decide (h = "Content-Length" \/ h = "Content-Range" \/ h = "Accept-Ranges")
    then header_get src h else None.
Proof.
  cbn [foldl]. unfold copy_header.
  destruct (header_get src "Content-Length") as [a|] eqn:Ha;
    destruct (header_get src "Content-Range") as [b|] eqn:Hb;
    destruct (header_get src "Accept-Ranges") as [c|] eqn:Hc;
    case_bool_decide as Hh;
    try (destruct Hh as [-> | [-> | ->]]; simplify_map_eq; congruence);
    (assert (h <> "Content-Length" /\ h <> "Content-Range" /\ h <> "Accept-Ranges")
       as (H1 & H2 & H3) by tauto; now simplify_map_eq).
Qed.

(** When the provider answers 200 or 206, [_proxy_stream] returns a
    streaming response with the provider's status code, the provider's
    Content-Type (or video/mp2t when it sent none), the provider's body
    chunks without the empty ones, and, of the provider's headers,
    exactly Content-Length, Content-Range and Accept-Ranges, each with
    the provider's value when the provider sent it under any
    capitalisation of the name. *)
Theorem proxy_stream_mirrors_upstream :
  forall w req url user_agent get response,
    (_proxy_stream w req url user_agent).2 = [get] ->
    upstream w get = GetResponse response ->
    status_code response = 200 \/ status_code response = 206 ->
    exists chunks content_type headers,
      (_proxy_stream w req url user_agent).1
      = Returns (StreamingHttpResponse chunks content_type (status_code response) headers)
      /\ chunks = List.filter (fun c => negb (String.eqb c "")) (iter_content response)
      /\ content_type
         = default "video/mp2t" (header_get (resp_headers response) "Content-Type")
      /\ (forall h,
             headers !! h
             = if bool_decide (h = "Content-Length" \/ h = "Content-Range"
                               \/ h = "Accept-Ranges")
               then header_get (resp_headers response) h else None).
Proof.
  intros w req url user_agent get response Hget Hup Hst.
  unfold _proxy_stream in *. cbn [fst snd] in *. injection Hget as <-.
  rewrite Hup.
  assert (Hok : negb ((status_code response =? 200) || (status_code response =? 206))
                = false).
  { destruct Hst as [-> | ->]; reflexivity. }
  rewrite Hok. eexists _, _, _. split; [reflexivity|].
  split; [reflexivity|]. split; [reflexivity|].
  intros h. apply copy_three_headers.
Qed.

Lemma proxy_stream_mirrors_upstream_witness :
  exists chunks content_type headers,
    (_proxy_stream world_streaming ranged_request "http://provider.example:8080/x"
       "VLC/3.0").1
    = Returns (StreamingHttpResponse chunks content_type 206 headers)
    /\ chunks = ["abc"; "de"]
    /\ content_type = "video/mp2t"
    /\ (forall h,
           headers !! h
           = if bool_decide (h = "Content-Length" \/ h = "Content-Range"
                             \/ h = "Accept-Ranges")
             then header_get (resp_headers partial_reply) h else None).
Proof.
  apply (proxy_stream_mirrors_upstream world_streaming ranged_request
           "http://provider.example:8080/x" "VLC/3.0"
           {| out_url := "http://provider.example:8080/x";
              out_headers := <["Range" := "bytes=1000-"]> {[ "User-Agent" := "VLC/3.0" ]};
              out_stream := true; out_timeout := 10 |} partial_reply).
  - reflexivity.
  - reflexivity.
  - right. reflexivity.
Defined.

(** ** Further properties of the catalog decoration *)

(** Decorating a catalog entry, whether it succeeds, skips or fails,
    changes no key other than [tv_archive], [tv_archive_duration] and
    [stream_id], and removes no key at all; the listing keeps its length
    and its order. *)
Theorem enhance_touches_three_keys :
  forall d stream_data,
    (forall k, k <> "tv_archive" -> k <> "tv_archive_duration" -> k <> "stream_id" ->
               (enhance d stream_data).1 !! k = stream_data !! k)
    /\ (forall k, is_Some (stream_data !! k) ->
                  is_Some ((enhance d stream_data).1 !! k))
    /\ (forall streams, length (enhance_all d streams) = length streams).
Proof.
  intros d stream_data. split; [|split].
  - intros k H1 H2 H3. unfold enhance.
    destruct (channel_for d _) as [e|[channel|]]; try reflexivity.
    destruct (first_ordered_stream d channel) as [fs|]; [|reflexivity].
    destruct (int_of (default (JInt 0) (_ !! "tv_archive"))) as [e|a]; [reflexivity|].
    destruct (int_of (default (JInt 0) (_ !! "tv_archive_duration"))) as [e|b];
      [now simplify_map_eq|].
    destruct (_ !! "stream_id") as [v|]; [|now simplify_map_eq].
    destruct (truthy v); [|now simplify_map_eq].
    destruct (int_of v); now simplify_map_eq.
  - intros k Hk. unfold enhance.
    destruct (channel_for d _) as [e|[channel|]]; try exact Hk.
    destruct (first_ordered_stream d channel) as [fs|]; [|exact Hk].
    destruct (int_of (default (JInt 0) (_ !! "tv_archive"))) as [e|a]; [exact Hk|].
    assert (H1 : is_Some ((<["tv_archive" := JInt a]> stream_data : dict) !! k)).
    { destruct (decide (k = "tv_archive")) as [->|Hne]; now simplify_map_eq. }
    destruct (int_of (default (JInt 0) (_ !! "tv_archive_duration"))) as [e|b];
      [exact H1|].
    assert (H2 : is_Some ((<["tv_archive_duration" := JInt b]>
                             (<["tv_archive" := JInt a]> stream_data) : dict) !! k)).
    { destruct (decide (k = "tv_archive_duration")) as [->|Hne]; now simplify_map_eq. }
    destruct (_ !! "stream_id") as [v|]; [|exact H2].
    destruct (truthy v); [|exact H2].
    destruct (int_of v) as [e|i]; [exact H2|]. cbn [fst].
    destruct (decide (k = "stream_id")) as [->|Hne]; now simplify_map_eq.
  - intros streams. induction streams as [|sd rest IH]; [reflexivity|].
    simpl. now rewrite IH.
Qed.

Lemma enhance_touches_three_keys_witness :
  (enhance store entry_news).1 !! "name" = Some (JStr "News").
Proof.
  assert (H : is_Some (entry_news !! "name")) by (eexists; reflexivity).
  pose proof (proj1 (enhance_touches_three_keys store entry_news) "name") as Hk.
  rewrite Hk; [reflexivity | discriminate | discriminate | discriminate].
Defined.

(** An entry whose decoration succeeds carries, as integers, the
    [tv_archive] and [tv_archive_duration] of the first stream of its
    channel (0 for an absent property), and its [stream_id] is the
    provider's identifier as an integer when the stream has a truthy
    one, and is left as it was otherwise. *)
Theorem enhance_success_values :
  forall d stream_data,
    (enhance d stream_data).2 = Enhanced ->
    exists props a b,
      Spec.entry_props d stream_data = Some props
      /\ Spec.int_prop props "tv_archive" = inr a
      /\ Spec.int_prop props "tv_archive_duration" = inr b
      /\ (enhance d stream_data).1 !! "tv_archive" = Some (JInt a)
      /\ (enhance d stream_data).1 !! "tv_archive_duration" = Some (JInt b)
      /\ (enhance d stream_data).1 !! "stream_id"
         = match props !! "stream_id" with
           | Some v => if truthy v
                       then match int_of v with
                            | inr i => Some (JInt i)
                            | inl _ => stream_data !! "stream_id"
                            end
                       else stream_data !! "stream_id"
           | None => stream_data !! "stream_id"
           end.
Proof.
  intros d stream_data. unfold Spec.entry_props, Spec.int_prop, enhance.
  destruct (channel_for d _) as [e|[channel|]]; try discriminate.
  destruct (first_ordered_stream d channel) as [fs|]; [|discriminate].
  simpl.
  destruct (int_of (default (JInt 0) (_ !! "tv_archive"))) as [e|a] eqn:Ha;
    [discriminate|].
  destruct (int_of (default (JInt 0) (_ !! "tv_archive_duration"))) as [e|b] eqn:Hb;
    [discriminate|].
  intros H. exists (or_empty (stream_custom_properties fs)), a, b.
  split; [reflexivity|]. split; [exact Ha|]. split; [exact Hb|].
  destruct (_ !! "stream_id") as [v|]; [|now simplify_map_eq].
  destruct (truthy v); [|now simplify_map_eq].
  destruct (int_of v) as [e|i]; [discriminate|]. now simplify_map_eq.
Qed.

Lemma enhance_success_values_witness :
  exists props a b,
    Spec.entry_props store entry_news = Some props
    /\ Spec.int_prop props "tv_archive" = inr a
    /\ Spec.int_prop props "tv_archive_duration" = inr b
    /\ (enhance store entry_news).1 !! "tv_archive" = Some (JInt a)
    /\ (enhance store entry_news).1 !! "tv_archive_duration" = Some (JInt b)
    /\ (enhance store entry_news).1 !! "stream_id"
       = match props !! "stream_id" with
         | Some v => if truthy v
                     then match int_of v with
                          | inr i => Some (JInt i)
                          | inl _ => entry_news !! "stream_id"
                          end
                     else entry_news !! "stream_id"
         | None => entry_news !! "stream_id"
         end.
Proof.
  apply (enhance_success_values store entry_news). vm_compute. reflexivity.
Defined.

(** After decoration the catalog entry of channel 7 advertises the
    provider's identifier 22371, the one the live and timeshift paths
    look up. *)
Example enhance_news :
  (enhance store entry_news).1 !! "stream_id" = Some (JInt 22371)
  /\ find_channel store john "22371" = Some news.
Proof. split; vm_compute; reflexivity. Qed.

(** ** Installing, then removing *)

Lemma callable_eqb_eq f g : callable_eqb f g = true -> f = g.
Proof.
  destruct f, g; simpl; try discriminate; intros H;
    try (apply String.eqb_eq in H); try (apply Nat.eqb_eq in H); now subst.
Qed.

Lemma install_hooks_pristine s :
  Spec.pristine s -> Spec.all_importable s ->
  install_hooks s = (true, Spec.installed s).
Proof.
  intros (H1 & H2 & H3 & H4) Himp.
  assert (I1 : importable s "apps.output.views" = true)
    by (apply Himp; simpl; tauto).
  assert (I2 : importable s "apps.proxy.ts_proxy.views" = true)
    by (apply Himp; simpl; tauto).
  assert (I3 : importable s "dispatcharr.urls" = true)
    by (apply Himp; simpl; tauto).
  assert (I4 : importable s "django.urls.resolvers" = true)
    by (apply Himp; simpl; tauto).
  assert (I5 : importable s "dispatcharr_timeshift.views" = true)
    by (apply Himp; simpl; tauto).
  destruct s as [a b c d oa ob oc od n imp]. simpl in *. subst.
  unfold install_hooks, _patch_xc_get_live_streams, _patch_stream_xc,
    _patch_url_resolver, bind, import, get, modify, def, ret. simpl.
  rewrite I1. simpl. rewrite I2. simpl. rewrite I3. simpl. rewrite I4. simpl.
  rewrite I5. reflexivity.
Qed.

(** The loop of [_patch_stream_xc], as a map over the patterns and a
    dictionary filled along the way. *)
Lemma patch_loop original patched (l : list url_entry) :
  forall (m : gmap N callable) (acc : list url_entry),
    foldl (patch_entry original patched) (m, acc) l
    = (foldl (fun m p => if Spec.routes_to original p
                         then <[entry_id p := original]> m else m) m l,
       (acc ++ ((fun p => if Spec.routes_to original p
                          then {| entry_id := entry_id p; entry_name := entry_name p;
                                  entry_callback := Some patched |}
                          else p) <$> l))%list).
Proof.
  induction l as [|p l IH]; intros m acc; simpl.
  - now rewrite app_nil_r.
  - assert (Hstep : patch_entry original patched (m, acc) p
                    = (if Spec.routes_to original p
                       then <[entry_id p := original]> m else m,
                       (acc ++ [if Spec.routes_to original p
                                then {| entry_id := entry_id p;
                                        entry_name := entry_name p;
                                        entry_callback := Some patched |}
                                else p])%list)).
    { unfold patch_entry, Spec.routes_to. simpl.
      destruct (entry_callback p) as [cb|]; [destruct (callable_eqb cb original)|];
        reflexivity. }
    rewrite Hstep, IH. now rewrite <- app_assoc.
Qed.

Lemma saved_keeps original (l : list url_entry) :
  forall (m : gmap N callable) k,
    m !! k = Some original ->
    foldl (fun m p => if Spec.routes_to original p
                      then <[entry_id p := original]> m else m) m l !! k
    = Some original.
Proof.
  induction l as [|p l IH]; intros m k Hk; simpl; [exact Hk|].
  apply IH. destruct (Spec.routes_to original p); [|exact Hk].
  destruct (decide (entry_id p = k)) as [->|Hne]; now simplify_map_eq.
Qed.

Lemma saved_hit original (l : list url_entry) :
  forall (m : gmap N callable) p,
    In p l -> Spec.routes_to original p = true ->
    foldl (fun m p => if Spec.routes_to original p
                      then <[entry_id p := original]> m else m) m l !! entry_id p
    = Some original.
Proof.
  induction l as [|q l IH]; intros m p Hin Hp; [destruct Hin|]. simpl.
  destruct Hin as [->|Hin]; [|now apply IH].
  rewrite Hp. apply saved_keeps. now simplify_map_eq.
Qed.

Lemma saved_miss original (l : list url_entry) :
  forall (m : gmap N callable) k,
    (forall p, In p l -> Spec.routes_to original p = true -> entry_id p <> k) ->
    foldl (fun m p => if Spec.routes_to original p
                      then <[entry_id p := original]> m else m) m l !! k
    = m !! k.
Proof.
  induction l as [|q l IH]; intros m k Hk; simpl; [reflexivity|].
  rewrite IH by (intros p Hp; apply Hk; now right).
  destruct (Spec.routes_to original q) eqn:Hq; [|reflexivity].
  assert (entry_id q <> k) by (apply Hk; [now left | exact Hq]).
  now simplify_map_eq.
Qed.

Lemma nodup_ids_inj (l : list url_entry) p q :
  List.NoDup (List.map entry_id l) -> In p l -> In q l ->
  entry_id p = entry_id q -> p = q.
Proof.
  induction l as [|a l IH]; intros Hnd Hp Hq Heq; [destruct Hp|].
  simpl in Hnd. apply List.NoDup_cons_iff in Hnd as [Hna Hnd].
  destruct Hp as [->|Hp], Hq as [->|Hq]; auto.
  - exfalso. apply Hna. rewrite Heq. now apply List.in_map.
  - exfalso. apply Hna. rewrite <- Heq. now apply List.in_map.
Qed.

(** The loop of [_restore_stream_xc] undoes the loop of
    [_patch_stream_xc] when the patterns are distinct objects. *)
Lemma restore_loop original patched (l : list url_entry) :
  List.NoDup (List.map entry_id l) ->
  restore_entry (foldl (patch_entry original patched) (∅, []) l).1
    <$> (foldl (patch_entry original patched) (∅, []) l).2
  = l.
Proof.
  intros Hnd. rewrite patch_loop. cbn [fst snd app].
  rewrite <- list_fmap_compose.
  transitivity (id <$> l); [|apply list_fmap_id].
  apply list_eq. intros i. rewrite !list_lookup_fmap.
  destruct (l !! i) as [p|] eqn:Hp; [|reflexivity]. simpl. f_equal.
  assert (Hin : In p l).
  { apply list_elem_of_In. eapply list_elem_of_lookup_2. exact Hp. }
  unfold restore_entry.
  destruct (Spec.routes_to original p) eqn:Hr; simpl.
  - rewrite (saved_hit original l ∅ p Hin Hr).
    unfold Spec.routes_to in Hr. destruct p as [pid pname [cb|]]; simpl in *;
      [|discriminate].
    apply callable_eqb_eq in Hr. now subst.
  - rewrite saved_miss; [now rewrite lookup_empty|].
    intros q Hq Hrq Heq.
    assert (q = p) by (eapply nodup_ids_inj; eauto). subst. congruence.
Qed.

(** [install_hooks] followed by [uninstall_hooks], on a host where
    nothing is patched yet, every import succeeds and the URL patterns
    are distinct objects: the install reports success, the removal
    raises nothing, the four patched attributes of the host hold the
    functions they held before, every URL pattern has its callback
    back, and hooks.py holds no saved reference. *)
Theorem install_then_uninstall_restores :
  forall s,
    Spec.pristine s -> Spec.all_importable s ->
    List.NoDup (List.map entry_id (urlpatterns s)) ->
    let r := uninstall_hooks (install_hooks s).2 in
    (install_hooks s).1 = true
    /\ r.1 = inr tt
    /\ xc_get_live_streams r.2 = xc_get_live_streams s
    /\ stream_xc r.2 = stream_xc s
    /\ urlpatterns r.2 = urlpatterns s
    /\ URLResolver_resolve r.2 = URLResolver_resolve s
    /\ Spec.pristine r.2.
Proof.
  intros s Hp Himp Hnd r. unfold r. clear r.
  rewrite (install_hooks_pristine s Hp Himp). cbn [fst snd].
  assert (I1 : importable s "apps.output.views" = true)
    by (apply Himp; simpl; tauto).
  assert (I2 : importable s "apps.proxy.ts_proxy.views" = true)
    by (apply Himp; simpl; tauto).
  assert (I3 : importable s "dispatcharr.urls" = true)
    by (apply Himp; simpl; tauto).
  assert (I4 : importable s "django.urls.resolvers" = true)
    by (apply Himp; simpl; tauto).
  unfold uninstall_hooks, _restore_xc_get_live_streams, _restore_stream_xc,
    _restore_url_resolver, bind, import, get, modify, ret, Spec.installed.
  cbn -[foldl]. rewrite I1. cbn -[foldl]. rewrite I2. cbn -[foldl].
  rewrite I3. cbn -[foldl]. rewrite I4. cbn -[foldl].
  repeat split; try reflexivity.
  apply restore_loop. exact Hnd.
Qed.

Lemma install_then_uninstall_restores_witness :
  urlpatterns (uninstall_hooks (install_hooks host0).2).2 = urlpatterns host0.
Proof.
  apply (install_then_uninstall_restores host0).
  - repeat split.
  - intros m Hm. reflexivity.
  - vm_compute. repeat constructor; simpl; intuition discriminate.
Defined.



(** A failed install is not rolled back: when the catalog views import
    and the proxy views do not, [install_hooks] returns [False] and the
    catalog listing stays patched, with its original saved, while live
    playback, the URL patterns and the resolver are untouched. *)
Theorem failed_install_keeps_first_patch :
  forall s,
    importable s "apps.output.views" = true ->
    importable s "apps.proxy.ts_proxy.views" = false ->
    let r := install_hooks s in
    r.1 = false
    /\ xc_get_live_streams r.2 = PatchedLiveStreams (closures s)
    /\ _original_xc_get_live_streams r.2 = Some (xc_get_live_streams s)
    /\ stream_xc r.2 = stream_xc s
    /\ _original_stream_xc r.2 = _original_stream_xc s
    /\ urlpatterns r.2 = urlpatterns s
    /\ URLResolver_resolve r.2 = URLResolver_resolve s
    /\ _original_resolve r.2 = _original_resolve s.
Proof.
  intros s I1 I2 r. unfold r. clear r.
  destruct s as [a b c d oa ob oc od n imp]. simpl in *.
  unfold install_hooks, _patch_xc_get_live_streams, _patch_stream_xc,
    bind, import, get, modify, def, ret. cbn -[foldl].
  rewrite I1. cbn -[foldl]. rewrite I2. cbn. repeat split.
Qed.

Lemma failed_install_keeps_first_patch_witness :
  (install_hooks host_without_proxy).1 = false
  /\ xc_get_live_streams (install_hooks host_without_proxy).2 = PatchedLiveStreams 0.
Proof.
  destruct (failed_install_keeps_first_patch host_without_proxy)
    as (H1 & H2 & _); [reflexivity | reflexivity |].
  split; [exact H1 | exact H2].
Defined.



(** ** Further properties of live playback *)

Lemma head_filter_in {A : Type} (f : A -> bool) (l : list A) (x : A) :
  head (List.filter f l) = Some x -> In x l /\ f x = true.
Proof.
  intros H. apply head_filter_first in H as (Hx & before & after & -> & _).
  split; [|exact Hx]. apply in_or_app. right. now left.
Qed.

(** The internal-id fallback of live playback only returns a channel of
    the store whose id is the integer the identifier parses to; for a
    user below level 10 that channel requires no more than the user's
    level and, when the user has channel profiles, belongs to one of
    them through an enabled membership. *)
Theorem by_internal_id_sound :
  forall d user channel_id_str channel,
    by_internal_id d user channel_id_str = Some channel ->
    In channel (channels d)
    /\ int_of_str channel_id_str = Some (channel_id channel)
    /\ (user_level user < 10 ->
        channel_user_level channel <= user_level user
        /\ (channel_profiles user <> [] ->
            enabled_member d (channel_profiles user) channel = true)).
Proof.
  intros d user sid channel. unfold by_internal_id, first.
  destruct (int_of_str sid) as [i|]; [|discriminate].
  destruct (Z.ltb_spec (user_level user) 10) as [Hlt|Hge].
  - destruct (channel_profiles user) as [|p ps] eqn:Hprof; simpl.
    + unfold channels_by_id_level. intros H.
      apply head_filter_in in H as (Hin & Hf).
      apply andb_prop in Hf as [Hid Hlv].
      apply Z.eqb_eq in Hid. apply Z.leb_le in Hlv. subst.
      repeat split; auto; try (intros; congruence).
    + unfold channels_by_id_level_profiles. intros H.
      apply head_filter_in in H as (Hin & Hf).
      apply andb_prop in Hf as [Hf Hm]. apply andb_prop in Hf as [Hid Hlv].
      apply Z.eqb_eq in Hid. apply Z.leb_le in Hlv. subst.
      repeat split; auto.
  - unfold channels_by_id. intros H.
    apply head_filter_in in H as (Hin & Hid).
    apply Z.eqb_eq in Hid. subst. repeat split; auto; lia.
Qed.

Lemma by_internal_id_sound_witness :
  In sports (channels store) /\ int_of_str "9" = Some (channel_id sports).
Proof.
  destruct (by_internal_id_sound store john "9" sports) as (H1 & H2 & _);
    [reflexivity|].
  split; [exact H1 | exact H2].
Defined.

Lemma find_channel_in_store d user sid channel :
  find_channel d user sid = Some channel -> In channel (channels d).
Proof.
  unfold find_channel, by_provider_stream_id, first, stream_channels.
  destruct (head (xc_streams_with_provider_id d sid)) as [s|].
  - destruct (head (List.filter _ (channels d))) as [c|] eqn:Hc.
    + intros [= <-]. now apply head_filter_in in Hc.
    + unfold by_internal_id, first, channels_by_id, channels_by_id_level,
        channels_by_id_level_profiles.
      destruct (int_of_str sid); [|discriminate].
      destruct (user_level user <? 10); [destruct (_ =? _)%nat|];
        intros H; now apply head_filter_in in H.
  - unfold by_internal_id, first, channels_by_id, channels_by_id_level,
      channels_by_id_level_profiles.
    destruct (int_of_str sid); [|discriminate].
    destruct (user_level user <? 10); [destruct (_ =? _)%nat|];
      intros H; now apply head_filter_in in H.
Qed.

(** While the plugin is enabled, the patched live playback hands a
    channel to [stream_ts] only for an existing user whose stored
    xc_password is the supplied password, and only a channel of the
    store that requires no more than the user's level, whichever
    branch of the lookup found it; it never calls the function it
    replaced. *)
Theorem live_playback_serves_within_level :
  forall w original uname password channel_id uuid t,
    _is_plugin_enabled w = true ->
    patched_stream_xc w original uname password channel_id
    = (inr (HostResponse "stream_ts" [uuid]), t) ->
    t = [HostFn "stream_ts"]
    /\ exists user channel,
         users (db w) !! uname = Some user
         /\ or_empty (user_custom_properties user) !! "xc_password"
            = Some (JStr password)
         /\ In channel (channels (db w))
         /\ channel_uuid channel = uuid
         /\ channel_user_level channel <= user_level user.
Proof.
  intros w original uname password channel_id uuid t Hen.
  unfold patched_stream_xc. rewrite Hen. cbn [negb].
  destruct (users (db w) !! uname) as [user|]; [|discriminate].
  destruct (or_empty (user_custom_properties user) !! "xc_password") as [v|] eqn:Hv;
    [|discriminate].
  destruct (eq_str v password) eqn:He; cbn [negb]; [|discriminate].
  destruct (find_channel (db w) user (stem channel_id)) as [channel|] eqn:Hf;
    [|discriminate].
  destruct (Z.ltb_spec (user_level user) (channel_user_level channel)) as [Hlt|Hge];
    [discriminate|].
  intros [= <- <-]. split; [reflexivity|].
  exists user, channel. split; [reflexivity|].
  split.
  { destruct v; simpl in He; try discriminate.
    apply String.eqb_eq in He. now subst. }
  split; [eapply find_channel_in_store; eauto|]. split; [reflexivity | lia].
Qed.

Lemma live_playback_serves_within_level_witness :
  exists user channel,
    users (db world0) !! "john" = Some user
    /\ or_empty (user_custom_properties user) !! "xc_password"
       = Some (JStr "secret123")
    /\ In channel (channels (db world0))
    /\ channel_uuid channel = "uuid-7"
    /\ channel_user_level channel <= user_level user.
Proof.
  apply (live_playback_serves_within_level world0
           (fun _ _ _ => (inl TypeError, [])) "john" "secret123" "22371.ts"
           "uuid-7" [HostFn "stream_ts"]); reflexivity.
Defined.

(** The two authentication paths compared: whoever the timeshift handler
    authenticates, live playback does not answer 401; the converse
    fails, since live playback accepts a stored empty xc_password
    matched by an empty supplied password and the timeshift handler
    refuses it. *)
Theorem timeshift_auth_implies_live_auth :
  forall w original uname password channel_id user,
    _is_plugin_enabled w = true ->
    _authenticate_user (db w) uname password = Some user ->
    (patched_stream_xc w original uname password channel_id).1
    <> inr (Response "Invalid credentials" 401).
Proof.
  intros w original uname password channel_id user Hen.
  unfold _authenticate_user, patched_stream_xc. rewrite Hen. cbn [negb].
  destruct (users (db w) !! uname) as [u|]; [|discriminate].
  destruct (or_empty (user_custom_properties u) !! "xc_password") as [v|];
    [|discriminate].
  destruct (truthy v); cbn [negb]; [|discriminate].
  destruct (eq_str v password); cbn [negb]; [|discriminate].
  intros _.
  destruct (find_channel _ _ _) as [channel|]; [|discriminate].
  destruct (user_level u <? channel_user_level channel); discriminate.
Qed.

Lemma timeshift_auth_implies_live_auth_witness :
  (patched_stream_xc world0 (fun _ _ _ => (inl TypeError, [])) "john" "secret123"
     "7.ts").1
  <> inr (Response "Invalid credentials" 401).
Proof.
  apply (timeshift_auth_implies_live_auth world0 (fun _ _ _ => (inl TypeError, []))
           "john" "secret123" "7.ts" john); reflexivity.
Defined.

(** Live playback lets the empty credential through where the timeshift
    handler does not. *)
Example live_accepts_empty_credential :
  _authenticate_user (db world0) "blank" "" = None
  /\ patched_stream_xc world0 (fun _ _ _ => (inl TypeError, [])) "blank" "" "7.ts"
     = (inr (HostResponse "stream_ts" ["uuid-7"]), [HostFn "stream_ts"]).
Proof. split; vm_compute; reflexivity. Qed.

(** ** What the pattern captures *)

Lemma nonempty_neq s : nonempty s = true -> s <> "".
Proof. unfold nonempty. destruct (String.eqb_spec s ""); [discriminate | auto]. Qed.

Lemma duration_ts_digits last d : duration_ts last = Some d -> digits1 d = true.
Proof.
  unfold duration_ts.
  set (s := match String.rev last with
            | String "010" r => String.rev r
            | _ => last
            end).
  clearbody s.
  destruct (String.rev s) as [|c1 [|c2 [|c3 r]]]; try discriminate.
  - destruct c1 as [[] [] [] [] [] [] [] []]; discriminate.
  - destruct c1 as [[] [] [] [] [] [] [] []]; try discriminate;
      destruct c2 as [[] [] [] [] [] [] [] []]; discriminate.
  - destruct c1 as [[] [] [] [] [] [] [] []]; try discriminate;
      destruct c2 as [[] [] [] [] [] [] [] []]; try discriminate;
      destruct c3 as [[] [] [] [] [] [] [] []]; try discriminate.
    destruct (digits1 (String.rev r)) eqn:Hd; [|discriminate].
    now intros [= <-].
Qed.

Lemma all_chars_rev_app p s1 s2 :
  all_chars p (String.rev_app s1 s2) = all_chars p s1 && all_chars p s2.
Proof.
  revert s2. induction s1 as [|c s1 IH]; intros s2; [reflexivity|].
  simpl. rewrite IH. unfold all_chars. simpl.
  now rewrite andb_assoc, (andb_comm (forallb p _) (p c)).
Qed.

Lemma rev_app_rev_app s1 s2 s3 :
  String.rev_app (String.rev_app s1 s2) s3 = String.rev_app s2 (s1 +:+ s3).
Proof.
  revert s2 s3. induction s1 as [|c s1 IH]; intros s2 s3; [reflexivity|].
  simpl. rewrite IH. reflexivity.
Qed.

Lemma rev_involutive s : String.rev (String.rev s) = s.
Proof.
  unfold String.rev. rewrite rev_app_rev_app. simpl.
  induction s as [|c s IH]; [reflexivity|].
  change (String c s +:+ "") with (String c (s +:+ "")). now rewrite IH.
Qed.

Lemma digit_not_stripped c : is_digit c = true -> mem_ascii c ".ts" = false.
Proof. destruct c as [[] [] [] [] [] [] [] []]; vm_compute; congruence. Qed.

Lemma rstrip_digits d : all_chars is_digit d = true -> rstrip ".ts" d = d.
Proof.
  intros Hd. unfold rstrip.
  assert (Hr : all_chars is_digit (String.rev d) = true).
  { unfold String.rev. rewrite all_chars_rev_app, Hd. reflexivity. }
  destruct (String.rev d) as [|c r] eqn:Hrev.
  - simpl. rewrite <- Hrev. apply rev_involutive.
  - unfold all_chars in Hr. simpl in Hr. apply andb_prop in Hr as [Hc _].
    change (lstrip ".ts" (String c r))
      with (if mem_ascii c ".ts" then lstrip ".ts" r else String c r).
    rewrite (digit_not_stripped c Hc). rewrite <- Hrev. apply rev_involutive.
Qed.

(** Whatever path the pattern matches, the user name and the password
    it captures are not empty, the stream id and the duration are
    non-empty runs of digits, the timestamp is a non-empty run of
    digits, hyphens and colons; and [rstrip('.ts')] in the handler
    leaves the captured duration as it is, so the provider id looked up
    is the captured one. *)
Theorem captured_groups_wellformed :
  forall path g,
    TIMESHIFT_PATTERN path = Some g ->
    g_username g <> ""
    /\ g_password g <> ""
    /\ digits1 (g_stream_id g) = true
    /\ timestamp_token (g_timestamp g) = true
    /\ digits1 (g_duration g) = true
    /\ rstrip ".ts" (g_duration g) = g_duration g.
Proof.
  intros path g. unfold TIMESHIFT_PATTERN.
  destruct (split "/" _) as [|t [|u [|p [|sid [|ts [|last [|x r]]]]]]];
    try discriminate.
  destruct (String.eqb t "timeshift" && nonempty u && nonempty p && digits1 sid
            && timestamp_token ts) eqn:Hc; [|discriminate].
  destruct (duration_ts last) as [d|] eqn:Hd; [|discriminate].
  simpl. intros [= <-]. simpl.
  apply andb_prop in Hc as [Hc Hts]. apply andb_prop in Hc as [Hc Hsid].
  apply andb_prop in Hc as [Hc Hp]. apply andb_prop in Hc as [_ Hu].
  apply duration_ts_digits in Hd.
  repeat split; auto using nonempty_neq.
  apply rstrip_digits. unfold digits1 in Hd. now apply andb_prop in Hd as [_ Hd].
Qed.

Lemma captured_groups_wellformed_witness :
  rstrip ".ts" "22371" = "22371".
Proof.
  apply (captured_groups_wellformed
           "/timeshift/john/secret123/155/2025-01-15:14-30/22371.ts"
           {| g_username := "john"; g_password := "secret123"; g_stream_id := "155";
              g_timestamp := "2025-01-15:14-30"; g_duration := "22371" |}).
  reflexivity.
Defined.
